(** * mirascope: tool schemas, Anthropic response chunks, streams and cost

    A shallow embedding of

    - [mirascope/base/tools.py]: [BaseTool.args], [BaseTool.tool_schema],
      [tool_fn], [convert_function_to_tool];
    - [mirascope/core/anthropic/call_response_chunk.py]: the properties of
      [AnthropicCallResponseChunk];
    - the stream, call-response and cost layer, whose classes are exercised by
      [tests/core/groq/test_stream.py] and [tests/core/cohere/test_stream.py].

    Python exceptions are values of [result]; dictionaries whose order is
    observable (field definitions, JSON schema properties) are association
    lists updated the way a Python [dict] is. *)

From Stdlib Require Import String Ascii List Bool Arith ZArith QArith Lia.
From Stdlib Require Import Permutation.
Import ListNotations.
Open Scope string_scope.

(* ------------------------------------------------------------------ *)
(** ** Python exceptions and the error monad                            *)
(* ------------------------------------------------------------------ *)

Inductive PyError : Type :=
| ValueError (msg : string)
| AttributeError (attr : string)
| KeyError (key : string)
| RuntimeError (msg : string)
| ValidationError (loc : string).

Inductive result (A : Type) : Type :=
| Ok (a : A)
| Raise (e : PyError).
Arguments Ok {A} a.
Arguments Raise {A} e.

Definition bind {A B : Type} (m : result A) (k : A -> result B) : result B :=
  match m with
  | Ok a => k a
  | Raise e => Raise e
  end.

Notation "x <- m ;; k" := (bind m (fun x => k))
  (at level 61, m at next level, right associativity).


(** Truthiness of a [str] and of an [Optional[str]]. *)
Definition str_truthy (s : string) : bool :=
  match s with EmptyString => false | String _ _ => true end.

Definition opt_str_truthy (o : option string) : bool :=
  match o with Some s => str_truthy s | None => false end.

(** [s.startswith(prefix)]. *)
Definition startswith (prefix s : string) : bool := String.prefix prefix s.

(* ------------------------------------------------------------------ *)
(** ** Anthropic stream events and [AnthropicCallResponseChunk]         *)
(* ------------------------------------------------------------------ *)

Module Anthropic.

(** The stop reasons of the SDK's [Message.stop_reason] literal. *)
Inductive StopReason : Type :=
| end_turn | max_tokens | stop_sequence | tool_use.

(** [str(stop_reason)]. *)
Definition str_of_stop_reason (r : StopReason) : string :=
  match r with
  | end_turn => "end_turn"
  | max_tokens => "max_tokens"
  | stop_sequence => "stop_sequence"
  | tool_use => "tool_use"
  end.

Record Usage : Type := mkUsage
  { input_tokens : Z; output_tokens : Z }.

Record MessageDeltaUsage : Type := mkMessageDeltaUsage
  { delta_output_tokens : Z }.

Record Message : Type := mkMessage
  { message_id : string;
    message_model : string;
    message_stop_reason : option StopReason;
    message_usage : Usage }.

(** The [delta] of a content-block delta event. *)
Inductive ContentDelta : Type :=
| TextDelta (text : string)
| InputJSONDelta (partial_json : string).

(** The [delta] of a message delta event: no [type], no [text]. *)
Record MessageDelta : Type := mkMessageDelta
  { delta_stop_reason : option StopReason;
    delta_stop_sequence : option string }.

Inductive ContentBlock : Type :=
| TextBlock (text : string)
| ToolUseBlock (id name : string).

(** [MessageStreamEvent]: the union of the SDK's six raw events.
    [MessageStartEvent] is the SDK's alias of [RawMessageStartEvent]. *)
Inductive MessageStreamEvent : Type :=
| RawMessageStartEvent (message : Message)
| RawMessageDeltaEvent (delta : MessageDelta) (usage : MessageDeltaUsage)
| RawMessageStopEvent
| RawContentBlockStartEvent (index : Z) (content_block : ContentBlock)
| RawContentBlockDeltaEvent (index : Z) (delta : ContentDelta)
| RawContentBlockStopEvent (index : Z).

(** Attribute access, as Python performs it: an attribute the object does
    not have raises [AttributeError]. *)
Definition event_type (chunk : MessageStreamEvent) : string :=
  match chunk with
  | RawMessageStartEvent _ => "message_start"
  | RawMessageDeltaEvent _ _ => "message_delta"
  | RawMessageStopEvent => "message_stop"
  | RawContentBlockStartEvent _ _ => "content_block_start"
  | RawContentBlockDeltaEvent _ _ => "content_block_delta"
  | RawContentBlockStopEvent _ => "content_block_stop"
  end.

Inductive DeltaObject : Type :=
| OfContent (d : ContentDelta)
| OfMessage (d : MessageDelta).

Definition get_delta (chunk : MessageStreamEvent) : result DeltaObject :=
  match chunk with
  | RawContentBlockDeltaEvent _ d => Ok (OfContent d)
  | RawMessageDeltaEvent d _ => Ok (OfMessage d)
  | _ => Raise (AttributeError "delta")
  end.

Definition delta_type (d : DeltaObject) : result string :=
  match d with
  | OfContent (TextDelta _) => Ok "text_delta"
  | OfContent (InputJSONDelta _) => Ok "input_json_delta"
  | OfMessage _ => Raise (AttributeError "type")
  end.

Definition delta_text (d : DeltaObject) : result string :=
  match d with
  | OfContent (TextDelta t) => Ok t
  | _ => Raise (AttributeError "text")
  end.

(** [AnthropicCallResponseChunk.content]: the condition is evaluated first,
    left to right with a short-circuit [and]. *)
Definition content (chunk : MessageStreamEvent) : result string :=
  cond <- (if event_type chunk =? "content_block_delta"
           then d <- get_delta chunk ;;
                t <- delta_type d ;;
                Ok (t =? "text_delta")
           else Ok false) ;;
  if (cond : bool)
  then d <- get_delta chunk ;; delta_text d
  else Ok "".

(** [AnthropicCallResponseChunk.finish_reasons]. *)
Definition finish_reasons (chunk : MessageStreamEvent)
  : option (list string) :=
  match chunk with
  | RawMessageStartEvent message =>
      match message_stop_reason message with
      | Some r =>
          if str_truthy (str_of_stop_reason r)
          then Some [str_of_stop_reason r]
          else None
      | None => None
      end
  | _ => None
  end.

(** [AnthropicCallResponseChunk.model]. *)
Definition model (chunk : MessageStreamEvent) : option string :=
  match chunk with
  | RawMessageStartEvent message => Some (message_model message)
  | _ => None
  end.

(** [AnthropicCallResponseChunk.id]. *)
Definition id (chunk : MessageStreamEvent) : option string :=
  match chunk with
  | RawMessageStartEvent message => Some (message_id message)
  | _ => None
  end.

(** [AnthropicCallResponseChunk.usage]: [Usage | MessageDeltaUsage | None]. *)
Definition usage (chunk : MessageStreamEvent)
  : option (Usage + MessageDeltaUsage) :=
  match chunk with
  | RawMessageStartEvent message => Some (inl (message_usage message))
  | RawMessageDeltaEvent _ u => Some (inr u)
  | _ => None
  end.

(** [AnthropicCallResponseChunk.input_tokens]: only [Usage] has the
    attribute. *)
Definition chunk_input_tokens (chunk : MessageStreamEvent) : option Z :=
  match usage chunk with
  | Some (inl u) => Some (input_tokens u)
  | _ => None
  end.

(** [AnthropicCallResponseChunk.output_tokens]. *)
Definition chunk_output_tokens (chunk : MessageStreamEvent) : option Z :=
  match usage chunk with
  | Some (inl u) => Some (output_tokens u)
  | Some (inr u) => Some (delta_output_tokens u)
  | None => None
  end.

End Anthropic.

(* ------------------------------------------------------------------ *)
(** ** JSON values and Python dictionaries                              *)
(* ------------------------------------------------------------------ *)

#[local] Set Warnings "-register-all".

Inductive Json : Type :=
| JNull
| JBool (b : bool)
| JNum (n : Z)
| JStr (s : string)
| JList (l : list Json)
| JDict (d : list (string * Json)).

(** A [dict] keeps insertion order; assigning to a key that is present
    replaces the value in place, assigning to a new key appends. *)
Section Dict.
Context {V : Type}.

Fixpoint dict_get (k : string) (d : list (string * V)) : option V :=
  match d with
  | [] => None
  | (k', v) :: rest => if k' =? k then Some v else dict_get k rest
  end.

Fixpoint dict_set (d : list (string * V)) (k : string) (v : V)
  : list (string * V) :=
  match d with
  | [] => [(k, v)]
  | (k', v') :: rest =>
      if k' =? k then (k, v) :: rest else (k', v') :: dict_set rest k v
  end.

Definition dict_keys (d : list (string * V)) : list string := map fst d.

(** [dict(pairs)] and [**kwargs] merging: later pairs win, first position
    is kept. *)
Definition dict_update (d : list (string * V)) (pairs : list (string * V))
  : list (string * V) :=
  fold_left (fun acc kv => dict_set acc (fst kv) (snd kv)) pairs d.

(** [{k: v for k, v in d.items() if keep(k)}]. *)
Definition dict_filter (keep : string -> bool) (d : list (string * V))
  : list (string * V) :=
  filter (fun kv => keep (fst kv)) d.
End Dict.

Definition mem_str (x : string) (l : list string) : bool :=
  existsb (String.eqb x) l.

(* ------------------------------------------------------------------ *)
(** ** [str.split("_")] and [str.title()] on ASCII identifiers          *)
(* ------------------------------------------------------------------ *)

Definition is_upper (c : ascii) : bool :=
  let n := nat_of_ascii c in (65 <=? n)%nat && (n <=? 90)%nat.
Definition is_lower (c : ascii) : bool :=
  let n := nat_of_ascii c in (97 <=? n)%nat && (n <=? 122)%nat.
Definition to_upper (c : ascii) : ascii :=
  if is_lower c then ascii_of_nat (nat_of_ascii c - 32) else c.
Definition to_lower (c : ascii) : ascii :=
  if is_upper c then ascii_of_nat (nat_of_ascii c + 32) else c.

Fixpoint title_from (prev_cased : bool) (s : string) : string :=
  match s with
  | EmptyString => EmptyString
  | String c rest =>
      if is_upper c || is_lower c
      then String (if prev_cased then to_lower c else to_upper c)
                  (title_from true rest)
      else String c (title_from false rest)
  end.

Definition title (s : string) : string := title_from false s.

Fixpoint split_on (sep : ascii) (cur : string) (s : string) : list string :=
  match s with
  | EmptyString => [cur]
  | String c rest =>
      if Ascii.eqb c sep
      then cur :: split_on sep EmptyString rest
      else split_on sep (cur ++ String c EmptyString) rest
  end.

Definition split_underscore (s : string) : list string :=
  split_on "_"%char EmptyString s.

Definition nl : string := String (ascii_of_nat 10) EmptyString.

(* ------------------------------------------------------------------ *)
(** ** [mirascope/base/tools.py]                                        *)
(* ------------------------------------------------------------------ *)

Module Tools.

(** A type annotation, by its name; the schema and the validator pydantic
    derives from it are parameters of the development. *)
Definition PyType : Type := string.

(** [inspect.Parameter]: [annotation] and [default] are [None] for
    [Parameter.empty]. *)
Record SigParameter : Type := mkSigParameter
  { name : string;
    annotation : option PyType;
    default : option Json }.

(** [docstring_parser]'s [DocstringParam] and [Docstring]. *)
Record DocstringParam : Type := mkDocstringParam
  { arg_name : string;
    description : option string }.

Record Docstring : Type := mkDocstring
  { short_description : option string;
    long_description : option string;
    params : list DocstringParam }.

(** A Python function as [convert_function_to_tool] sees it: [__name__],
    [__doc__], [parse(fn.__doc__)] and [signature(fn).parameters]. *)
Record Function : Type := mkFunction
  { fn_name : string;
    fn_doc : option string;
    fn_docstring : Docstring;
    fn_parameters : list SigParameter }.

(** [pydantic.fields.FieldInfo], the attributes the code sets. *)
Record FieldInfo : Type := mkFieldInfo
  { fi_annotation : PyType;
    fi_default : option Json;
    fi_description : option string;
    fi_alias : option string;
    fi_validation_alias : option string;
    fi_serialization_alias : option string }.

(** A pydantic model class deriving from [BaseTool]: its name, its
    [__doc__], its fields in definition order (inherited fields first) and
    the function [tool_fn] attached, if any. *)
Record ModelClass : Type := mkModelClass
  { cls_name : string;
    cls_doc : option string;
    model_fields : list (string * FieldInfo);
    cls_fn : option Function }.

(** An instance: the values of the fields, under their field names. *)
Record ToolInstance : Type := mkToolInstance
  { tool_cls : ModelClass;
    tool_values : list (string * Json) }.

(** What [cls.model_json_schema()] returns: [description], [required] and
    [$defs] are keys that may be missing. *)
Record ModelSchema : Type := mkModelSchema
  { ms_title : string;
    ms_description : option string;
    ms_properties : list (string * list (string * Json));
    ms_required : option (list string);
    ms_defs : option (list (string * Json)) }.

(** The dictionary [tool_schema] returns. *)
Record ToolParameters : Type := mkToolParameters
  { tp_type : string;
    tp_properties : list (string * list (string * Json));
    tp_required : list string;
    tp_defs : list (string * Json) }.

Record ToolSchema : Type := mkToolSchema
  { ts_name : string;
    ts_description : string;
    ts_parameters : option ToolParameters }.

(** *** pydantic *)
Section Pydantic.
(** The property schema pydantic generates for one field, the [$defs]
    entries its annotation contributes, and the validator of an
    annotation. *)
Variable field_json_schema : string -> FieldInfo -> list (string * Json).
Variable field_defs : FieldInfo -> list (string * Json).
Variable validate_value : PyType -> Json -> option Json.

Definition validation_key (field_name : string) (fi : FieldInfo) : string :=
  match fi_validation_alias fi with Some a => a | None => field_name end.

Definition serialization_key (field_name : string) (fi : FieldInfo)
  : string :=
  match fi_serialization_alias fi with Some a => a | None => field_name end.

(** [create_model(name, __base__=base, __doc__=doc, **field_definitions)]:
    a missing or empty [__doc__] leaves the class without a docstring. *)
Definition create_model (model_name : string) (base : ModelClass)
           (doc : string) (field_definitions : list (string * FieldInfo))
  : ModelClass :=
  {| cls_name := model_name;
     cls_doc := if str_truthy doc then Some doc else None;
     model_fields := dict_update (model_fields base) field_definitions;
     cls_fn := cls_fn base |}.

(** [cls.model_json_schema()], by alias and in validation mode. *)
Definition model_json_schema (cls : ModelClass) : ModelSchema :=
  let fields := model_fields cls in
  let required :=
    map (fun nf => validation_key (fst nf) (snd nf))
        (filter (fun nf => match fi_default (snd nf) with
                           | None => true | Some _ => false end) fields) in
  let defs :=
    dict_update [] (flat_map (fun nf => field_defs (snd nf)) fields) in
  {| ms_title := cls_name cls;
     ms_description :=
       match cls_doc cls with
       | Some d => if str_truthy d then Some d else None
       | None => None
       end;
     ms_properties :=
       dict_update []
         (map (fun nf => (validation_key (fst nf) (snd nf),
                          field_json_schema (fst nf) (snd nf))) fields);
     ms_required := match required with [] => None | _ => Some required end;
     ms_defs := match defs with [] => None | _ => Some defs end |}.

(** [cls.model_validate(data)]: a field is read under its validation
    alias; unknown keys are ignored. *)
Fixpoint validate_fields (fields : list (string * FieldInfo))
         (data : list (string * Json)) : result (list (string * Json)) :=
  match fields with
  | [] => Ok []
  | (field_name, fi) :: rest =>
      let key := validation_key field_name fi in
      v <- match dict_get key data with
           | Some raw =>
               match validate_value (fi_annotation fi) raw with
               | Some v => Ok v
               | None => Raise (ValidationError key)
               end
           | None =>
               match fi_default fi with
               | Some d => Ok d
               | None => Raise (ValidationError key)
               end
           end ;;
      vs <- validate_fields rest data ;;
      Ok ((field_name, v) :: vs)
  end.

Definition model_validate (cls : ModelClass) (data : list (string * Json))
  : result ToolInstance :=
  vs <- validate_fields (model_fields cls) data ;;
  Ok {| tool_cls := cls; tool_values := vs |}.

(** [self.model_dump(by_alias=..., exclude=...)]. *)
Definition model_dump (by_alias : bool) (exclude : list string)
           (self : ToolInstance) : list (string * Json) :=
  map (fun nv =>
         let key :=
           if by_alias
           then match dict_get (fst nv) (model_fields (tool_cls self)) with
                | Some fi => serialization_key (fst nv) fi
                | None => fst nv
                end
           else fst nv in
         (key, snd nv))
      (filter (fun nv => negb (mem_str (fst nv) exclude))
              (tool_values self)).

(** *** [BaseTool] *)

(** [BaseTool.args]. *)
Definition args (self : ToolInstance) : list (string * Json) :=
  model_dump false ["tool_call"] self.

(** [BaseTool.fn]: the base property raises; [tool_fn] replaces it. *)
Definition fn (self : ToolInstance) : result Function :=
  match cls_fn (tool_cls self) with
  | Some f => Ok f
  | None => Raise (RuntimeError "Tool does not have an attached function.")
  end.

(** The body of [BaseTool.tool_schema] after [model_json_schema()]. *)
Definition tool_schema_of (model_schema : ModelSchema) : result ToolSchema :=
  match ms_description model_schema with
  | None => Raise (ValueError "Tool must have a docstring description.")
  | Some descr =>
      let parameters :=
        match ms_properties model_schema with
        | [] => None
        | _ :: _ =>
            Some
              {| tp_type := "object";
                 tp_properties :=
                   map (fun pp => (fst pp, dict_update [] (snd pp)))
                       (dict_filter (fun prop => negb (prop =? "tool_call"))
                                    (ms_properties model_schema));
                 tp_required :=
                   match ms_required model_schema with
                   | Some req =>
                       filter (fun prop => negb (prop =? "tool_call")) req
                   | None => []
                   end;
                 tp_defs :=
                   match ms_defs model_schema with
                   | Some defs =>
                       dict_filter
                         (fun key =>
                            negb (key =? "ChatCompletionMessageToolCall")
                            && negb (key =? "Function")) defs
                   | None => []
                   end |}
        end in
      Ok {| ts_name := ms_title model_schema;
            ts_description := descr;
            ts_parameters := parameters |}
  end.

(** [BaseTool.tool_schema]. *)
Definition tool_schema (cls : ModelClass) : result ToolSchema :=
  tool_schema_of (model_json_schema cls).

(** The parameter names a tool schema lists, in order. *)
Definition schema_parameter_names (s : ToolSchema) : list string :=
  match ts_parameters s with
  | Some p => dict_keys (tp_properties p)
  | None => []
  end.

Definition schema_required (s : ToolSchema) : list string :=
  match ts_parameters s with
  | Some p => tp_required p
  | None => []
  end.

Definition schema_defs_names (s : ToolSchema) : list string :=
  match ts_parameters s with
  | Some p => dict_keys (tp_defs p)
  | None => []
  end.
End Pydantic.

(** *** [tool_fn] and [convert_function_to_tool] *)

(** [tool_fn(fn)(cls)]: sets the [fn] property on the class. *)
Definition tool_fn (f : Function) (cls : ModelClass) : ModelClass :=
  {| cls_name := cls_name cls;
     cls_doc := cls_doc cls;
     model_fields := model_fields cls;
     cls_fn := Some f |}.

Definition is_receiver (param_name : string) : bool :=
  (param_name =? "self") || (param_name =? "cls").

Definition name_mismatch_message (param_name doc_name : string) : string :=
  "Function parameter name " ++ param_name
  ++ " does not match docstring parameter name " ++ doc_name
  ++ ". Make sure that the parameter names match exactly.".

(** The documentation check of one parameter, at index [i] of the
    enumeration of the whole signature. *)
Definition docstring_check (i : nat) (parameter : SigParameter)
           (doc_params : list DocstringParam) : result (option string) :=
  if (i <? List.length doc_params)%nat
  then match nth_error doc_params i with
       | Some docstring_param =>
           if negb (arg_name docstring_param =? name parameter)
           then Raise (ValueError (name_mismatch_message
                                     (name parameter)
                                     (arg_name docstring_param)))
           else if negb (opt_str_truthy (description docstring_param))
           then Raise (ValueError "All parameters must have a description.")
           else Ok (description docstring_param)
       | None => Ok None
       end
  else Ok None.

(** The field a parameter becomes: its key in [field_definitions] and its
    [FieldInfo]. *)
Definition field_of_parameter (parameter : SigParameter) (hint : PyType)
           (docstring_description : option string) : string * FieldInfo :=
  let field_info :=
    {| fi_annotation := hint;
       fi_default := default parameter;
       fi_description :=
         if opt_str_truthy docstring_description
         then docstring_description else None;
       fi_alias := None;
       fi_validation_alias := None;
       fi_serialization_alias := None |} in
  if startswith "model_" (name parameter)
  then ("aliased_" ++ name parameter,
        {| fi_annotation := fi_annotation field_info;
           fi_default := fi_default field_info;
           fi_description := fi_description field_info;
           fi_alias := Some (name parameter);
           fi_validation_alias := Some (name parameter);
           fi_serialization_alias := Some (name parameter) |})
  else (name parameter, field_info).

(** The loop over [enumerate(signature(fn).parameters.values())]. *)
Fixpoint collect_fields (i : nat) (parameters : list SigParameter)
         (doc_params : list DocstringParam)
         (field_definitions : list (string * FieldInfo))
  : result (list (string * FieldInfo)) :=
  match parameters with
  | [] => Ok field_definitions
  | parameter :: rest =>
      if is_receiver (name parameter)
      then collect_fields (S i) rest doc_params field_definitions
      else
        match annotation parameter with
        | None =>
            Raise (ValueError "All parameters must have a type annotation.")
        | Some hint =>
            docstring_description <-
              docstring_check i parameter doc_params ;;
            let kf :=
              field_of_parameter parameter hint docstring_description in
            collect_fields (S i) rest doc_params
                           (dict_set field_definitions (fst kf) (snd kf))
        end
  end.

(** The description built from the parsed docstring. *)
Definition tool_doc (docstring : Docstring) : string :=
  let doc :=
    match short_description docstring with
    | Some s => if str_truthy s then s else ""
    | None => ""
    end in
  match long_description docstring with
  | Some l => if str_truthy l then doc ++ nl ++ nl ++ l else doc
  | None => doc
  end.

(** The class name: [fn.__name__] split at underscores, each word
    title-cased. *)
Definition tool_name (fn_name : string) : string :=
  String.concat "" (map title (split_underscore fn_name)).

Definition convert_function_to_tool (f : Function) (base : ModelClass)
  : result ModelClass :=
  if negb (opt_str_truthy (fn_doc f))
  then Raise (ValueError "Function must have a docstring.")
  else
    let docstring := fn_docstring f in
    let doc := tool_doc docstring in
    field_definitions <-
      collect_fields 0 (fn_parameters f) (params docstring) [] ;;
    Ok (create_model (tool_name (fn_name f)) (tool_fn f base) doc
                     field_definitions).

(** The Schema Builder applied to a function: the tool class, then its
    schema. *)
Definition function_tool_schema
           (field_json_schema : string -> FieldInfo -> list (string * Json))
           (field_defs : FieldInfo -> list (string * Json))
           (f : Function) (base : ModelClass) : result ToolSchema :=
  cls <- convert_function_to_tool f base ;;
  tool_schema field_json_schema field_defs cls.

End Tools.

(* ------------------------------------------------------------------ *)
(** ** Cost, call responses and streams                                 *)
(* ------------------------------------------------------------------ *)

Module Core.

(** Modelled from the spec: token usage, input and output counts (section
    3; the provider SDK types are not part of the sources at hand). *)
Record Usage : Type := mkUsage
  { input_tokens : Z; output_tokens : Z }.

(** Modelled from the spec: a tool invocation as a provider emits it, with
    its call id, tool name and parsed JSON arguments. *)
Record ToolCall : Type := mkToolCall
  { call_id : string;
    call_name : string;
    call_arguments : list (string * Json) }.

(** Modelled from the spec: the ToolCallInstance of section 3, the
    validated instance tied to the call it came from. *)
Record ToolCallInstance : Type := mkToolCallInstance
  { instance : Tools.ToolInstance;
    tool_call : ToolCall }.

(** Modelled from the spec: the concrete [from_tool_call] of the provider
    tool classes ([BaseTool.from_tool_call] is abstract): the arguments of
    the call, with the call itself under ["tool_call"], are validated
    against the tool class. *)
Definition from_tool_call
           (validate_value : Tools.PyType -> Json -> option Json)
           (cls : Tools.ModelClass) (tc : ToolCall)
  : result ToolCallInstance :=
  inst <- Tools.model_validate validate_value cls
            (dict_set (call_arguments tc) "tool_call"
                      (JDict [("id", JStr (call_id tc));
                              ("name", JStr (call_name tc))])) ;;
  Ok {| instance := inst; tool_call := tc |}.

(** Modelled from the spec: the assistant-turn message ([message_param]
    of section 4.2), in the shape the tests compare against. *)
Record MessageParam : Type := mkMessageParam
  { role : string;
    message_content : string;
    message_tool_calls : option (list ToolCall) }.

(** Modelled from the spec: a full, non-streamed provider response,
    reduced to what the wrapper of section 4.2 reads. *)
Record RawResponse : Type := mkRawResponse
  { raw_id : option string;
    raw_model : string;
    raw_content : option string;
    raw_finish_reasons : option (list string);
    raw_usage : option Usage;
    raw_tool_calls : option (list ToolCall) }.

(** Modelled from the spec: one incremental unit of a streamed response,
    as its [CallResponseChunk] wrapper shows it (section 3). *)
Record Chunk : Type := mkChunk
  { chunk_content : string;
    chunk_finish_reasons : option (list string);
    chunk_model : option string;
    chunk_id : option string;
    chunk_usage : option Usage }.

Section PriceTable.
(** Modelled from the spec: the static price table of section 6,
    (provider, model name) to (cost per input token, cost per output
    token). *)
Variable price_table : list ((string * string) * (Q * Q)).

(** Modelled from the spec: [pricing[model]], which raises [KeyError] for
    a model the table lacks. *)
Fixpoint table_get (provider model : string)
         (table : list ((string * string) * (Q * Q))) : result (Q * Q) :=
  match table with
  | [] => Raise (KeyError model)
  | ((p, m), prices) :: rest =>
      if (p =? provider) && (m =? model)
      then Ok prices
      else table_get provider model rest
  end.

(** Modelled from the spec: the per-provider cost calculators
    ([openai_api_calculate_cost] and its siblings, in [_utils] modules
    that are not part of the sources at hand): null without token counts,
    null for a model the table lacks (the lookup error is caught), else
    input tokens times the input price plus output tokens times the
    output price. *)
Definition calculate_cost (provider : string)
           (input output : option Z) (model : string)
  : result (option Q) :=
  match input, output with
  | Some i, Some o =>
      match table_get provider model price_table with
      | Ok (prompt, completion) =>
          Ok (Some (Qred (inject_Z i * prompt + inject_Z o * completion)))
      | Raise (KeyError _) => Ok None
      | Raise e => Raise e
      end
  | _, _ => Ok None
  end.

(** Modelled from the spec: the [CallResponse] wrapper of section 4.2 (the
    [call_response] modules are not part of the sources at hand). *)
Record CallResponse : Type := mkCallResponse
  { _provider : string;
    response : RawResponse }.

(** Modelled from the spec: [content], the primary text, empty string if
    none. *)
Definition content (r : CallResponse) : string :=
  match raw_content (response r) with Some c => c | None => "" end.

(** Modelled from the spec: [finish_reasons], null if the provider gives
    none. *)
Definition finish_reasons (r : CallResponse) : option (list string) :=
  raw_finish_reasons (response r).

(** Modelled from the spec: [model] of the raw response. *)
Definition model (r : CallResponse) : string := raw_model (response r).

(** Modelled from the spec: [id] of the raw response. *)
Definition id (r : CallResponse) : option string := raw_id (response r).

(** Modelled from the spec: [usage], null when the raw response has no
    usage substructure. *)
Definition usage (r : CallResponse) : option Usage :=
  raw_usage (response r).

(** Modelled from the spec: [input_tokens] of a call response, null without
    usage. *)
Definition cr_input_tokens (r : CallResponse) : option Z :=
  option_map input_tokens (usage r).

(** Modelled from the spec: [output_tokens] of a call response, null
    without usage. *)
Definition cr_output_tokens (r : CallResponse) : option Z :=
  option_map output_tokens (usage r).

(** Modelled from the spec: [cost], the price-table cost of the token
    counts of the response. *)
Definition cost (r : CallResponse) : result (option Q) :=
  calculate_cost (_provider r) (cr_input_tokens r) (cr_output_tokens r)
                 (model r).

(** Modelled from the spec: the assistant-turn message built from tool
    calls and content. *)
Definition construct_message_param (tool_calls : option (list ToolCall))
           (text : string) : MessageParam :=
  {| role := "assistant";
     message_content := text;
     message_tool_calls := tool_calls |}.


(** Modelled from the spec: the states of the stream's state machine
    (section 4.3). *)
Inductive Phase : Type := NotStarted | Consuming | Exhausted.

(** Modelled from the spec: the [Stream] of sections 3 and 4.3 (the
    [stream] modules are not part of the sources at hand; the tests build
    a stream from a generator of (chunk, tool-or-null) pairs, a model
    name and the provider): the pairs not pulled yet and the running
    totals. *)
Record Stream : Type := mkStream
  { stream : list (Chunk * option ToolCallInstance);
    phase : Phase;
    stream_provider : string;
    stream_model : string;
    stream_content : string;
    stream_finish_reasons : option (list string);
    stream_id : option string;
    stream_usage : option Usage;
    stream_tool_calls : list ToolCall;
    stream_cost : option Q;
    stream_message_param : option MessageParam }.

(** Modelled from the spec: construction, state NotStarted, nothing pulled
    yet, cost, usage and message_param null. *)
Definition new_stream (provider model_name : string)
           (source : list (Chunk * option ToolCallInstance)) : Stream :=
  {| stream := source;
     phase := NotStarted;
     stream_provider := provider;
     stream_model := model_name;
     stream_content := "";
     stream_finish_reasons := None;
     stream_id := None;
     stream_usage := None;
     stream_tool_calls := [];
     stream_cost := None;
     stream_message_param := None |}.

(** Modelled from the spec: "overwritten with the latest non-null value
    seen". *)
Definition latest {A : Type} (old new : option A) : option A :=
  match new with Some _ => new | None => old end.

(** Modelled from the spec: the tool-call list of a message, null when
    no tool was called. *)
Definition tool_calls_or_none (l : list ToolCall)
  : option (list ToolCall) :=
  match l with [] => None | _ => Some l end.

(** Modelled from the spec: one pull (section 4.3). A pair is yielded and
    accumulated (content appended, usage, finish reasons, id and model
    overwritten by the latest non-null value, the tool's call recorded),
    or the source is exhausted and cost and message_param become
    defined. *)
Definition next (s : Stream)
  : result (option (Chunk * option ToolCallInstance) * Stream) :=
  match stream s with
  | (chunk, tool) :: rest =>
      Ok (Some (chunk, tool),
          {| stream := rest;
             phase := Consuming;
             stream_provider := stream_provider s;
             stream_model :=
               match chunk_model chunk with
               | Some m => m
               | None => stream_model s
               end;
             stream_content := stream_content s ++ chunk_content chunk;
             stream_finish_reasons :=
               latest (stream_finish_reasons s)
                      (chunk_finish_reasons chunk);
             stream_id := latest (stream_id s) (chunk_id chunk);
             stream_usage := latest (stream_usage s) (chunk_usage chunk);
             stream_tool_calls :=
               match tool with
               | Some t => stream_tool_calls s ++ [tool_call t]
               | None => stream_tool_calls s
               end;
             stream_cost := stream_cost s;
             stream_message_param := stream_message_param s |})
  | [] =>
      c <- calculate_cost (stream_provider s)
             (option_map input_tokens (stream_usage s))
             (option_map output_tokens (stream_usage s))
             (stream_model s) ;;
      Ok (None,
          {| stream := [];
             phase := Exhausted;
             stream_provider := stream_provider s;
             stream_model := stream_model s;
             stream_content := stream_content s;
             stream_finish_reasons := stream_finish_reasons s;
             stream_id := stream_id s;
             stream_usage := stream_usage s;
             stream_tool_calls := stream_tool_calls s;
             stream_cost := c;
             stream_message_param :=
               Some (construct_message_param
                       (tool_calls_or_none (stream_tool_calls s))
                       (stream_content s)) |})
  end.

(** Modelled from the spec: the pulls of [for _ in stream: pass], with
    fuel; the result is the exhausted stream, or nothing when the fuel ran
    out first. *)
Fixpoint iterate (fuel : nat) (s : Stream) : result (option Stream) :=
  match fuel with
  | O => Ok None
  | S fuel' =>
      ys <- next s ;;
      match fst ys with
      | Some _ => iterate fuel' (snd ys)
      | None => Ok (Some (snd ys))
      end
  end.

(** Modelled from the spec: [for _ in stream: pass], one pull more than
    the source has pairs. *)
Definition consume (s : Stream) : result (option Stream) :=
  iterate (S (List.length (stream s))) s.

(** Modelled from the spec: the usage a provider's reconstruction puts into
    the raw response. Section 4.3 has the accumulated usage replayed, and
    the cohere stream tests agree (the reconstructed response has the billed
    units of the stream). The groq stream tests show that the reconstruction
    of [GroqStream] carries none: [test_construct_call_response] compares
    it, on usage, input tokens, output tokens and cost, with a
    [ChatCompletion] built without usage, although the second chunk carries
    usage (the same chunks give the stream its cost in
    [test_groq_stream]). *)
Definition replayed_usage (provider : string) (accumulated : option Usage)
  : option Usage :=
  if provider =? "groq" then None else accumulated.

(** Modelled from the spec: [construct_call_response()], valid once the
    stream is exhausted; it replays the accumulated content, tool calls and,
    where the provider's reconstruction does, usage into the raw shape and
    wraps it as a non-streamed call would. *)
Definition construct_call_response (s : Stream) : result CallResponse :=
  match phase s with
  | Exhausted =>
      Ok {| _provider := stream_provider s;
            response :=
              {| raw_id := stream_id s;
                 raw_model := stream_model s;
                 raw_content := Some (stream_content s);
                 raw_finish_reasons := stream_finish_reasons s;
                 raw_usage :=
                   replayed_usage (stream_provider s) (stream_usage s);
                 raw_tool_calls :=
                   tool_calls_or_none (stream_tool_calls s) |} |}
  | _ =>
      Raise (ValueError
               "No stream response, check if the stream has been consumed.")
  end.

(** What a chunk sequence carries as a whole, stated on the sequence and
    not on the stream's state. *)
Definition carried_content (source : list (Chunk * option ToolCallInstance))
  : string :=
  String.concat "" (map (fun p => chunk_content (fst p)) source).

Fixpoint last_some {A : Type} (l : list (option A)) : option A :=
  match l with
  | [] => None
  | x :: rest =>
      match last_some rest with
      | Some y => Some y
      | None => x
      end
  end.

Definition carried_tool_calls
           (source : list (Chunk * option ToolCallInstance))
  : list ToolCall :=
  flat_map (fun p => match snd p with
                     | Some t => [tool_call t]
                     | None => []
                     end) source.

(** The latest non-null finish reasons, usage and id of the chunks, and
    the latest non-null model, the stream's own when no chunk names
    one. *)
Definition carried_finish_reasons
           (source : list (Chunk * option ToolCallInstance))
  : option (list string) :=
  last_some (map (fun p => chunk_finish_reasons (fst p)) source).

Definition carried_usage (source : list (Chunk * option ToolCallInstance))
  : option Usage :=
  last_some (map (fun p => chunk_usage (fst p)) source).

Definition carried_id (source : list (Chunk * option ToolCallInstance))
  : option string :=
  last_some (map (fun p => chunk_id (fst p)) source).

Definition carried_model (model_name : string)
           (source : list (Chunk * option ToolCallInstance)) : string :=
  match last_some (map (fun p => chunk_model (fst p)) source) with
  | Some m => m
  | None => model_name
  end.


End PriceTable.

End Core.

(* ------------------------------------------------------------------ *)
(** ** Conditions on a function's documentation                         *)
(* ------------------------------------------------------------------ *)

Module Documentation.
Import Tools.





(** The key of a parameter in [field_definitions]. *)
Definition field_key (param_name : string) : string :=
  if startswith "model_" param_name
  then "aliased_" ++ param_name
  else param_name.


End Documentation.

(* ------------------------------------------------------------------ *)
(** ** Concrete inputs                                                  *)
(* ------------------------------------------------------------------ *)

Module Samples.
Import Tools.

(** A provider tool class in the shape of [OpenAITool]: one bookkeeping
    field, the tool call the instance came from. *)
Definition provider_tool : ModelClass :=
  {| cls_name := "OpenAITool";
     cls_doc := Some "A base class for easy use of tools.";
     model_fields :=
       [("tool_call",
         {| fi_annotation := "ChatCompletionMessageToolCall";
            fi_default := None;
            fi_description := None;
            fi_alias := None;
            fi_validation_alias := None;
            fi_serialization_alias := None |})];
     cls_fn := None |}.

(** A property schema with the title and the description of the field. *)
Definition sample_field_schema (field_name : string) (fi : FieldInfo)
  : list (string * Json) :=
  ("title", JStr (title field_name))
    :: match fi_description fi with
       | Some d => [("description", JStr d)]
       | None => []
       end.

(** The tool-call annotation brings its two nested definitions. *)
Definition sample_field_defs (fi : FieldInfo) : list (string * Json) :=
  if fi_annotation fi =? "ChatCompletionMessageToolCall"
  then [("ChatCompletionMessageToolCall", JDict []); ("Function", JDict [])]
  else [].

(** A validator that accepts every value as it is. *)
Definition accept_all (_ : PyType) (v : Json) : option Json := Some v.

Definition int_param (n : string) : SigParameter :=
  {| name := n; annotation := Some "int"; default := None |}.

Definition documented (n : string) : DocstringParam :=
  {| arg_name := n; description := Some ("The " ++ n ++ ".") |}.

(** [def add(a: int, b: int)] with both parameters documented. *)
Definition add_function : Function :=
  {| fn_name := "add";
     fn_doc := Some "Adds two numbers.";
     fn_docstring :=
       {| short_description := Some "Adds two numbers.";
          long_description := None;
          params := [documented "a"; documented "b"] |};
     fn_parameters := [int_param "a"; int_param "b"] |}.

(** [def add(self, a: int, b: int)], documented the same way: the
    docstring never lists the receiver. *)
Definition add_method : Function :=
  {| fn_name := "add";
     fn_doc := Some "Adds two numbers.";
     fn_docstring :=
       {| short_description := Some "Adds two numbers.";
          long_description := None;
          params := [documented "a"; documented "b"] |};
     fn_parameters :=
       [{| name := "self"; annotation := None; default := None |};
        int_param "a"; int_param "b"] |}.



(** [def undocumented(a: int)] without a docstring. *)
Definition no_docstring : Function :=
  {| fn_name := "undocumented";
     fn_doc := None;
     fn_docstring :=
       {| short_description := None; long_description := None;
          params := [] |};
     fn_parameters := [int_param "a"] |}.

(** A tool class without a docstring. *)
Definition undescribed_tool : ModelClass :=
  {| cls_name := "Undescribed";
     cls_doc := None;
     model_fields := model_fields provider_tool;
     cls_fn := None |}.

(** [def pick(model_name: str)], documented. *)
Definition pick_function : Function :=
  {| fn_name := "pick";
     fn_doc := Some "Picks a model.";
     fn_docstring :=
       {| short_description := Some "Picks a model.";
          long_description := None;
          params := [documented "model_name"] |};
     fn_parameters :=
       [{| name := "model_name"; annotation := Some "str";
           default := None |}] |}.

(** The arguments of a tool call for [pick], with the call itself. *)
Definition pick_call_data : list (string * Json) :=
  [("model_name", JStr "gpt-4o"); ("tool_call", JDict [("id", JStr "id")])].

(** The tool class [convert_function_to_tool] builds from
    [add_function]. *)
Definition add_tool : ModelClass :=
  create_model "Add" (tool_fn add_function provider_tool) "Adds two numbers."
    [("a", {| fi_annotation := "int"; fi_default := None;
              fi_description := Some "The a.";
              fi_alias := None; fi_validation_alias := None;
              fi_serialization_alias := None |});
     ("b", {| fi_annotation := "int"; fi_default := None;
              fi_description := Some "The b.";
              fi_alias := None; fi_validation_alias := None;
              fi_serialization_alias := None |})].

(** The price-table entries behind the costs the stream tests expect. *)
Definition test_prices : list ((string * string) * (Q * Q)) :=
  [(("groq", "llama3-70b-8192"), (59 # 100000000, 79 # 100000000));
   (("cohere", "command-r-plus"), (3 # 1000000, 15 # 1000000))].

(** The two chunks of [tests/core/groq/test_stream.py] and the tool the
    generator yields with the second. *)
Definition format_book_call : Core.ToolCall :=
  {| Core.call_id := "id";
     Core.call_name := "FormatBook";
     Core.call_arguments :=
       [("title", JStr "The Name of the Wind");
        ("author", JStr "Patrick Rothfuss")] |}.

Definition format_book_tool : Core.ToolCallInstance :=
  {| Core.instance :=
       {| tool_cls := provider_tool;
          tool_values := Core.call_arguments format_book_call |};
     Core.tool_call := format_book_call |}.

Definition groq_chunks
  : list (Core.Chunk * option Core.ToolCallInstance) :=
  [({| Core.chunk_content := "content";
       Core.chunk_finish_reasons := None;
       Core.chunk_model := Some "llama3-70b-8192";
       Core.chunk_id := Some "id";
       Core.chunk_usage := None |}, None);
   ({| Core.chunk_content := "";
       Core.chunk_finish_reasons := Some ["stop"];
       Core.chunk_model := Some "llama3-70b-8192";
       Core.chunk_id := Some "id";
       Core.chunk_usage :=
         Some {| Core.input_tokens := 1; Core.output_tokens := 1 |} |},
    Some format_book_tool)].

(** The [ChatCompletion] of [test_construct_call_response] in
    [tests/core/groq/test_stream.py]: the content, finish reason and tool
    call of [groq_chunks], and no usage. *)
Definition groq_completion : Core.RawResponse :=
  {| Core.raw_id := Some "id";
     Core.raw_model := "llama3-70b-8192";
     Core.raw_content := Some "content";
     Core.raw_finish_reasons := Some ["stop"];
     Core.raw_usage := None;
     Core.raw_tool_calls := Some [format_book_call] |}.


(** The three chunks of [tests/core/cohere/test_stream.py] (stream start,
    text generation, stream end with billed units) and the
    [NonStreamedChatResponse] of its [test_construct_call_response]. *)
Definition cohere_chunks
  : list (Core.Chunk * option Core.ToolCallInstance) :=
  [({| Core.chunk_content := "";
       Core.chunk_finish_reasons := None;
       Core.chunk_model := None;
       Core.chunk_id := Some "id";
       Core.chunk_usage := None |}, None);
   ({| Core.chunk_content := "content";
       Core.chunk_finish_reasons := None;
       Core.chunk_model := None;
       Core.chunk_id := None;
       Core.chunk_usage := None |}, None);
   ({| Core.chunk_content := "";
       Core.chunk_finish_reasons := Some ["COMPLETE"];
       Core.chunk_model := None;
       Core.chunk_id := None;
       Core.chunk_usage :=
         Some {| Core.input_tokens := 1; Core.output_tokens := 1 |} |},
    None)].

Definition cohere_completion : Core.RawResponse :=
  {| Core.raw_id := Some "id";
     Core.raw_model := "command-r-plus";
     Core.raw_content := Some "content";
     Core.raw_finish_reasons := Some ["COMPLETE"];
     Core.raw_usage :=
       Some {| Core.input_tokens := 1; Core.output_tokens := 1 |};
     Core.raw_tool_calls := None |}.

(** A response whose model the price table does not list. *)
Definition unpriced_response : Core.CallResponse :=
  {| Core._provider := "groq";
     Core.response :=
       {| Core.raw_id := Some "id";
          Core.raw_model := "unlisted-model";
          Core.raw_content := Some "content";
          Core.raw_finish_reasons := Some ["stop"];
          Core.raw_usage :=
            Some {| Core.input_tokens := 1; Core.output_tokens := 1 |};
          Core.raw_tool_calls := None |} |}.

End Samples.

(* ------------------------------------------------------------------ *)
(** ** The other converters of [mirascope/base/tools.py]                *)
(* ------------------------------------------------------------------ *)

(** A computation that returns or raises an exception of any class, named by
    its class ([IndexError], [ValueError], ...). *)
Inductive outcome (A : Type) : Type :=
| Returns (a : A)
| Throws (exception_class : string) (msg : string).
Arguments Returns {A} a.
Arguments Throws {A} exception_class msg.

Module Converters.
Import Tools.

(** The description [convert_base_model_to_tool] generates for a schema
    without a docstring. *)
Definition internal_doc (schema_name : string) : string :=
  "An `" ++ schema_name
  ++ "` instance with correctly formatted and typed parameters "
  ++ "extracted from the completion. Must include required parameters and may "
  ++ "exclude optional parameters unless present in the text.".

(** [convert_base_model_to_tool(schema, base)]: the fields of the schema are
    passed on as they are, under the schema's docstring or the generated
    one. *)
Definition convert_base_model_to_tool (schema base : ModelClass)
  : ModelClass :=
  let field_definitions := dict_update [] (model_fields schema) in
  create_model (cls_name schema ++ "Tool") base
               (if opt_str_truthy (cls_doc schema)
                then match cls_doc schema with Some d => d | None => "" end
                else internal_doc (cls_name schema))
               field_definitions.


End Converters.

(* ------------------------------------------------------------------ *)
(** ** [tool_fn] on the class objects it mutates                        *)
(* ------------------------------------------------------------------ *)

(** [tool_fn(fn)(cls)] does [setattr(cls, "fn", ...)] on the class it is
    given, and [convert_function_to_tool] gives it the base class: the
    classes live in a store, each with its base and the [fn] property its own
    [__dict__] holds, if any; [tool.fn] is looked up along the bases. *)
Module ClassStore.
Import Tools.

Record ClassObject : Type := mkClassObject
  { co_name : string;
    co_doc : option string;
    co_fields : list (string * FieldInfo);
    co_base : option nat;
    co_fn : option Function }.

Definition Store : Type := list ClassObject.

(** The [fn] property found for class [c]: its own, or the one of the
    nearest base that has one; [BaseTool.fn] at the root raises. *)
Fixpoint lookup_fn (fuel : nat) (store : Store) (c : nat) : result Function :=
  match fuel with
  | O => Raise (AttributeError "fn")
  | S fuel' =>
      match nth_error store c with
      | None => Raise (AttributeError "fn")
      | Some o =>
          match co_fn o with
          | Some f => Ok f
          | None =>
              match co_base o with
              | Some b => lookup_fn fuel' store b
              | None =>
                  Raise (RuntimeError
                           "Tool does not have an attached function.")
              end
          end
      end
  end.

(** [tool.fn] for an instance of class [c]. *)
Definition fn_of (store : Store) (c : nat) : result Function :=
  lookup_fn (S (List.length store)) store c.

(** The class [c] as the converters read it. *)
Definition class_view (store : Store) (c : nat) : option ModelClass :=
  match nth_error store c with
  | Some o =>
      Some {| cls_name := co_name o;
              cls_doc := co_doc o;
              model_fields := co_fields o;
              cls_fn := match fn_of store c with
                        | Ok f => Some f
                        | Raise _ => None
                        end |}
  | None => None
  end.

Fixpoint set_fn (store : Store) (c : nat) (f : Function) : Store :=
  match store, c with
  | [], _ => []
  | o :: rest, O =>
      {| co_name := co_name o;
         co_doc := co_doc o;
         co_fields := co_fields o;
         co_base := co_base o;
         co_fn := Some f |} :: rest
  | o :: rest, S c' => o :: set_fn rest c' f
  end.

(** [tool_fn(fn)(cls)]: the property is set on [cls] itself, which is
    returned. *)
Definition tool_fn (f : Function) (cls : nat) (store : Store) : nat * Store :=
  (cls, set_fn store cls f).

(** [convert_function_to_tool(fn, base)] on the store: the checks and the
    fields are those of [Tools.convert_function_to_tool]; only when they
    pass is [tool_fn] applied to [base], and the new class is created with
    [base] as its base. *)
Definition convert_function_to_tool (f : Function) (base : nat)
           (store : Store) : result (nat * Store) :=
  match class_view store base with
  | None => Raise (AttributeError "__base__")
  | Some base_view =>
      cls <- Tools.convert_function_to_tool f base_view ;;
      let bs := tool_fn f base store in
      Ok (List.length (snd bs),
          (snd bs ++ [{| co_name := cls_name cls;
                         co_doc := cls_doc cls;
                         co_fields := model_fields cls;
                         co_base := Some (fst bs);
                         co_fn := None |}])%list)
  end.

End ClassStore.

(* ------------------------------------------------------------------ *)
(** ** The example scripts                                              *)
(* ------------------------------------------------------------------ *)

Module Examples.

(** [s.split(sep)] for a non-empty separator: the leftmost occurrences,
    without overlap; [skip] counts the characters of a matched separator
    still to pass. *)
Fixpoint split_sep (sep : string) (skip : nat) (cur : string) (s : string)
  : list string :=
  match s with
  | EmptyString => [cur]
  | String c rest =>
      match skip with
      | S k => split_sep sep k cur rest
      | O =>
          if String.prefix sep s
          then cur :: split_sep sep (String.length sep - 1) EmptyString rest
          else split_sep sep 0 (cur ++ String c EmptyString) rest
      end
  end.

Definition split (sep s : string) : list string :=
  split_sep sep 0 EmptyString s.

(** [parse_recommendation] of
    [examples/learn/output_parsers/basic_usage/openai/base_message_param.py]
    and [.../vertex/shorthand.py], on the [content] of the response:
    [title, author = response.content.split(" by ")]. *)
Definition parse_recommendation (content : string)
  : result (string * string) :=
  match split " by " content with
  | [title; author] => Ok (title, author)
  | [] | [_] =>
      Raise (ValueError "not enough values to unpack (expected 2, got 1)")
  | _ :: _ :: _ :: _ =>
      Raise (ValueError "too many values to unpack (expected 2)")
  end.

(** [FewShotExample] of [enhanced_self_ask.py]. *)
Record FewShotExample : Type := mkFewShotExample
  { question : string;
    answer : string }.

(** [l[start:]] for an integer [start] of either sign. *)
Definition slice_from {A : Type} (start : Z) (l : list A) : list A :=
  let len := Z.of_nat (List.length l) in
  let first :=
    if (start <? 0)%Z then Z.max (len + start) 0 else Z.min start len in
  skipn (Z.to_nat first) l.

(** [[examples[i] for i in indices]]. *)
Fixpoint index_all {A : Type} (examples : list A) (indices : list nat)
  : outcome (list A) :=
  match indices with
  | [] => Returns []
  | i :: rest =>
      match nth_error examples i with
      | None => Throws "IndexError" "list index out of range"
      | Some x =>
          match index_all examples rest with
          | Returns xs => Returns (x :: xs)
          | Throws cls msg => Throws cls msg
          end
      end
  end.

Section Similarity.
(** The scores scikit-learn computes (TF-IDF vectors of the questions and
    the query, then cosine similarity), which may raise, and numpy's
    [argsort]. *)
Variable Score : Type.
Variable similarity_scores : string -> list string -> outcome (list Score).
Variable argsort : list Score -> list nat.

(** [select_relevant_examples(query, examples, n)]. *)
Definition select_relevant_examples (query : string)
           (examples : list FewShotExample) (n : Z)
  : outcome (list FewShotExample) :=
  match similarity_scores query (map question examples) with
  | Throws cls msg => Throws cls msg
  | Returns similarities =>
      let most_similar_indices :=
        rev (slice_from (- n) (argsort similarities)) in
      index_all examples most_similar_indices
  end.

(** The [computed_fields["examples"]] that [dynamic_self_ask] returns: one
    [question, answer] row per selected example. *)
Definition dynamic_self_ask (query : string)
           (examples : list FewShotExample) (n : Z)
  : outcome (list (list string)) :=
  match select_relevant_examples query examples n with
  | Throws cls msg => Throws cls msg
  | Returns relevant_examples =>
      Returns (map (fun example => [question example; answer example])
                   relevant_examples)
  end.
End Similarity.

End Examples.

(* ------------------------------------------------------------------ *)
(** ** Conditions on a signature                                        *)
(* ------------------------------------------------------------------ *)

Module Signature.
Import Tools.


(** The description the docstring gives at position [i], if any. *)
Definition position_description (docs : list DocstringParam) (i : nat)
  : option string :=
  match nth_error docs i with
  | Some d => description d
  | None => None
  end.

(** The parameters that are not receivers, each with its index in the
    enumeration of the whole signature, from [start] on. *)
Definition enumerated (start : nat) (ps : list SigParameter)
  : list (nat * SigParameter) :=
  filter (fun ip => negb (is_receiver (name (snd ip))))
         (combine (seq start (List.length ps)) ps).


(** The separator [sep] occurs nowhere in [s]. *)
Definition free_of (sep s : string) : Prop :=
  forall u v, s = u ++ v -> String.prefix sep v = false.

(** The check of [free_of] on a given string. *)
Fixpoint no_occurrence (sep s : string) : bool :=
  negb (String.prefix sep s)
  && match s with
     | EmptyString => true
     | String _ rest => no_occurrence sep rest
     end.

End Signature.

(* ------------------------------------------------------------------ *)
(** ** Further concrete inputs                                          *)
(* ------------------------------------------------------------------ *)

Module Cases.
Import Tools.

(** [def square(self, a: int)], with [a] documented. *)
Definition square_method : Function :=
  {| fn_name := "square";
     fn_doc := Some "Squares a number.";
     fn_docstring :=
       {| short_description := Some "Squares a number.";
          long_description := None;
          params := [Samples.documented "a"] |};
     fn_parameters :=
       [{| name := "self"; annotation := None; default := None |};
        Samples.int_param "a"] |}.


(** [def negate(a: int)] whose docstring has an [Args] section and no
    description. *)
Definition args_only_docstring : Function :=
  {| fn_name := "negate";
     fn_doc := Some "Args: a: The a.";
     fn_docstring :=
       {| short_description := None;
          long_description := None;
          params := [Samples.documented "a"] |};
     fn_parameters := [Samples.int_param "a"] |}.

(** [def greet(name: str, punctuation: str = "!")], documented. *)
Definition greet_function : Function :=
  {| fn_name := "greet";
     fn_doc := Some "Greets somebody.";
     fn_docstring :=
       {| short_description := Some "Greets somebody.";
          long_description := None;
          params := [Samples.documented "name";
                     Samples.documented "punctuation"] |};
     fn_parameters :=
       [{| name := "name"; annotation := Some "str"; default := None |};
        {| name := "punctuation"; annotation := Some "str";
           default := Some (JStr "!") |}] |}.

(** [def ping()], documented. *)
Definition ping_function : Function :=
  {| fn_name := "ping";
     fn_doc := Some "Pings.";
     fn_docstring :=
       {| short_description := Some "Pings.";
          long_description := None;
          params := [] |};
     fn_parameters := [] |}.


Definition str_field (descr : option string) : FieldInfo :=
  {| fi_annotation := "str";
     fi_default := None;
     fi_description := descr;
     fi_alias := None;
     fi_validation_alias := None;
     fi_serialization_alias := None |}.

(** [class Book(BaseModel)] with [title] and [author], no docstring. *)
Definition book_schema : ModelClass :=
  {| cls_name := "Book";
     cls_doc := None;
     model_fields := [("title", str_field None); ("author", str_field None)];
     cls_fn := None |}.

(** A store holding the provider tool class alone. *)
Definition provider_store : ClassStore.Store :=
  [{| ClassStore.co_name := cls_name Samples.provider_tool;
      ClassStore.co_doc := cls_doc Samples.provider_tool;
      ClassStore.co_fields := model_fields Samples.provider_tool;
      ClassStore.co_base := None;
      ClassStore.co_fn := None |}].

(** Two few-shot examples, scores that are all equal and the index order an
    argsort may then return. *)
Definition two_examples : list Examples.FewShotExample :=
  [{| Examples.question := "Which state has area code 575?";
      Examples.answer := "New Mexico." |};
   {| Examples.question := "Who founded the institute?";
      Examples.answer := "George Gallup." |}].

Definition flat_scores (_ : string) (questions : list string)
  : outcome (list nat) :=
  Returns (map (fun _ => 0%nat) questions).

Definition index_order (scores : list nat) : list nat :=
  seq 0 (List.length scores).

End Cases.

(* ------------------------------------------------------------------ *)
(** ** Properties of [AnthropicCallResponseChunk]                       *)
(* ------------------------------------------------------------------ *)

Section AnthropicChunk.
Import Anthropic.

Lemma stop_reason_truthy (r : StopReason) :
  str_truthy (str_of_stop_reason r) = true.
Proof. destruct r; reflexivity. Qed.

Lemma content_total (chunk : MessageStreamEvent) :
  exists text, content chunk = Ok text.
Proof.
  destruct chunk as [m | d u | | i b | i d | i]; try (eexists; reflexivity).
  destruct d; eexists; reflexivity.
Qed.

(** C9: the chunk wrapper's [content] never raises and is the delta text
    exactly for a content-block text delta, the empty string for every
    other event; its [usage] is non-null exactly for message-start and
    message-delta events, the only ones that carry a usage substructure. *)
Theorem chunk_content_and_usage :
  (forall chunk,
      content chunk
      = Ok match chunk with
           | RawContentBlockDeltaEvent _ (TextDelta text) => text
           | _ => ""
           end)
  /\ (forall chunk,
         usage chunk <> None
         <-> ((exists message, chunk = RawMessageStartEvent message)
              \/ (exists delta u, chunk = RawMessageDeltaEvent delta u))).
Proof.
  split.
  - intros [m | d u | | i b | i d | i]; try reflexivity.
    destruct d; reflexivity.
  - intros chunk; split.
    + destruct chunk as [m | d u | | i b | i d | i]; cbn; intros H;
        try (exfalso; apply H; reflexivity).
      * left; eexists; reflexivity.
      * right; do 2 eexists; reflexivity.
    + intros [[m ->] | [d [u ->]]]; cbn; discriminate.
Qed.

(** C10: [finish_reasons] is non-null only for a message-start event whose
    message already carries a stop reason (then it is the one-element list
    of that reason); it is null for every other event, a message-delta
    event carrying the stream's stop reason included. *)
Theorem finish_reasons_only_on_message_start :
  (forall chunk,
      finish_reasons chunk <> None
      <-> exists message r,
          chunk = RawMessageStartEvent message
          /\ message_stop_reason message = Some r
          /\ finish_reasons chunk = Some [str_of_stop_reason r])
  /\ (forall r sequence u,
         finish_reasons
           (RawMessageDeltaEvent
              {| delta_stop_reason := Some r;
                 delta_stop_sequence := sequence |} u)
         = None).
Proof.
  split.
  - intros chunk; split.
    + destruct chunk as [m | d u | | i b | i d | i]; cbn; intros H;
        try (exfalso; apply H; reflexivity).
      destruct (message_stop_reason m) as [r |] eqn:E.
      * exists m, r. cbn. rewrite E, stop_reason_truthy. repeat split.
      * exfalso; apply H; reflexivity.
    + intros [m [r [_ [_ ->]]]]; discriminate.
  - reflexivity.
Qed.

End AnthropicChunk.

(* ------------------------------------------------------------------ *)
(** ** Properties of the tool schema                                    *)
(* ------------------------------------------------------------------ *)

Section ToolSchema.
Import Tools Documentation.

Variable field_json_schema : string -> FieldInfo -> list (string * Json).
Variable field_defs : FieldInfo -> list (string * Json).

Lemma filter_excludes (x : string) (l : list string) :
  ~ In x (filter (fun y => negb (y =? x)) l).
Proof.
  intros H. apply filter_In in H. destruct H as [_ H].
  rewrite String.eqb_refl in H. discriminate.
Qed.

Lemma dict_filter_keys {V : Type} (keep : string -> bool)
      (d : list (string * V)) (k : string) :
  In k (dict_keys (dict_filter keep d)) -> keep k = true.
Proof.
  unfold dict_keys, dict_filter. intros H.
  apply in_map_iff in H. destruct H as [[k' v] [<- H]].
  apply filter_In in H. apply H.
Qed.

Lemma map_fst_pair {A B C : Type} (g : A * B -> C) (l : list (A * B)) :
  map fst (map (fun x => (fst x, g x)) l) = map fst l.
Proof. rewrite map_map. reflexivity. Qed.

Lemma tool_schema_of_strips (ms : ModelSchema) (s : ToolSchema) :
  tool_schema_of ms = Ok s ->
  ~ In "tool_call" (schema_parameter_names s)
  /\ ~ In "tool_call" (schema_required s)
  /\ ~ In "ChatCompletionMessageToolCall" (schema_defs_names s)
  /\ ~ In "Function" (schema_defs_names s).
Proof.
  unfold tool_schema_of.
  destruct (ms_description ms) as [descr |]; [| discriminate].
  intros H. injection H as <-.
  unfold schema_parameter_names, schema_required, schema_defs_names.
  destruct (ms_properties ms) as [| p0 props] eqn:Eprops;
    cbn -[dict_filter dict_update filter].
  { repeat split; intros []. }
  repeat split.
  - unfold dict_keys. rewrite map_fst_pair. intros H.
    apply (dict_filter_keys (fun prop => negb (prop =? "tool_call"))) in H.
    discriminate.
  - destruct (ms_required ms); [apply filter_excludes | intros []].
  - destruct (ms_defs ms); [| intros []].
    intros H. apply dict_filter_keys in H. discriminate.
  - destruct (ms_defs ms); [| intros []].
    intros H. apply dict_filter_keys in H. discriminate.
Qed.

(** C7: whatever fields a tool class declares, the schema [tool_schema]
    emits has no ["tool_call"] among its properties or in its required
    list, and its nested [$defs] have neither of the tool-call
    back-reference definitions, [ChatCompletionMessageToolCall] and
    [Function]. *)
Theorem tool_schema_strips_bookkeeping (cls : ModelClass) (s : ToolSchema) :
  tool_schema field_json_schema field_defs cls = Ok s ->
  ~ In "tool_call" (schema_parameter_names s)
  /\ ~ In "tool_call" (schema_required s)
  /\ ~ In "ChatCompletionMessageToolCall" (schema_defs_names s)
  /\ ~ In "Function" (schema_defs_names s).
Proof. apply tool_schema_of_strips. Qed.

(** C5: a function without a docstring makes [convert_function_to_tool],
    and so the whole schema construction, raise [ValueError] at its first
    statement; a tool class whose schema has no description makes
    [tool_schema] raise [ValueError]. Both are pure computations that end
    in the error: nothing is recovered and nothing runs after them. *)
Theorem missing_docstring_is_an_error
        (f : Function) (base cls : ModelClass) :
  opt_str_truthy (fn_doc f) = false ->
  ms_description (model_json_schema field_json_schema field_defs cls)
  = None ->
  convert_function_to_tool f base
  = Raise (ValueError "Function must have a docstring.")
  /\ function_tool_schema field_json_schema field_defs f base
     = Raise (ValueError "Function must have a docstring.")
  /\ tool_schema field_json_schema field_defs cls
     = Raise (ValueError "Tool must have a docstring description.").
Proof.
  intros Hdoc Hdescr.
  assert (Hconv : convert_function_to_tool f base
                  = Raise (ValueError "Function must have a docstring.")).
  { unfold convert_function_to_tool. rewrite Hdoc. reflexivity. }
  repeat split.
  - exact Hconv.
  - unfold function_tool_schema. rewrite Hconv. reflexivity.
  - unfold tool_schema, tool_schema_of. rewrite Hdescr. reflexivity.
Qed.

End ToolSchema.

Lemma tool_schema_strips_bookkeeping_witness :
  exists s,
    Tools.tool_schema Samples.sample_field_schema Samples.sample_field_defs
                      Samples.add_tool = Ok s
    /\ Tools.schema_parameter_names s = ["a"; "b"]
    /\ ~ In "tool_call" (Tools.schema_parameter_names s)
    /\ ~ In "tool_call" (Tools.schema_required s)
    /\ ~ In "ChatCompletionMessageToolCall" (Tools.schema_defs_names s)
    /\ ~ In "Function" (Tools.schema_defs_names s).
Proof.
  eexists. split; [reflexivity |]. split; [reflexivity |].
  apply (tool_schema_strips_bookkeeping
           Samples.sample_field_schema Samples.sample_field_defs
           Samples.add_tool).
  reflexivity.
Defined.

Lemma missing_docstring_is_an_error_witness :
  Tools.convert_function_to_tool Samples.no_docstring Samples.provider_tool
  = Raise (ValueError "Function must have a docstring.")
  /\ Tools.function_tool_schema
       Samples.sample_field_schema Samples.sample_field_defs
       Samples.no_docstring Samples.provider_tool
     = Raise (ValueError "Function must have a docstring.")
  /\ Tools.tool_schema Samples.sample_field_schema Samples.sample_field_defs
                       Samples.undescribed_tool
     = Raise (ValueError "Tool must have a docstring description.").
Proof.
  apply (missing_docstring_is_an_error
           Samples.sample_field_schema Samples.sample_field_defs
           Samples.no_docstring Samples.provider_tool
           Samples.undescribed_tool); reflexivity.
Defined.

(* ------------------------------------------------------------------ *)
(** ** The documentation check of [convert_function_to_tool]            *)
(* ------------------------------------------------------------------ *)

Section DocumentationCheck.
Import Tools Documentation.






End DocumentationCheck.

(* ------------------------------------------------------------------ *)
(** ** Parameter order of the schema of a plain function                *)
(* ------------------------------------------------------------------ *)

Section ParameterOrder.
Import Tools Documentation.

Variable field_json_schema : string -> FieldInfo -> list (string * Json).
Variable field_defs : FieldInfo -> list (string * Json).

Lemma dict_set_fresh {V : Type} (d : list (string * V)) (k : string) (v : V) :
  ~ In k (dict_keys d) -> dict_set d k v = (d ++ [(k, v)])%list.
Proof.
  induction d as [| [k' v'] d IH]; cbn; intros Hk; [reflexivity |].
  destruct (k' =? k) eqn:E.
  - apply String.eqb_eq in E. exfalso. apply Hk. left. exact E.
  - rewrite IH; [reflexivity |]. intros H. apply Hk. right. exact H.
Qed.

Lemma dict_update_fresh {V : Type} (l : list (string * V)) :
  forall d : list (string * V),
    NoDup (dict_keys l) ->
    (forall k, In k (dict_keys l) -> ~ In k (dict_keys d)) ->
    dict_update d l = (d ++ l)%list.
Proof.
  unfold dict_update.
  induction l as [| [k v] l IH]; intros d Hnd Hfresh; cbn.
  - now rewrite app_nil_r.
  - cbn in Hnd. apply NoDup_cons_iff in Hnd. destruct Hnd as [Hk Hnd].
    rewrite dict_set_fresh by (apply Hfresh; left; reflexivity).
    rewrite IH.
    + now rewrite <- app_assoc.
    + exact Hnd.
    + intros k' Hk' Hin. unfold dict_keys in Hin.
      rewrite map_app in Hin. apply in_app_or in Hin.
      destruct Hin as [Hin | [<- | []]].
      * apply (Hfresh k'); [right; exact Hk' | exact Hin].
      * apply Hk. exact Hk'.
Qed.

Lemma field_of_parameter_keys (p : SigParameter) (hint : PyType)
      (o : option string) :
  fst (field_of_parameter p hint o) = field_key (name p)
  /\ validation_key (fst (field_of_parameter p hint o))
                    (snd (field_of_parameter p hint o)) = name p.
Proof.
  unfold field_of_parameter, field_key, validation_key.
  destruct (startswith "model_" (name p)); split; reflexivity.
Qed.






End ParameterOrder.


(** [args] is keyed by field names: whatever aliases the fields carry, the
    keys of the dump are the internal names, the bookkeeping field left
    out. *)
Lemma args_keys_are_field_names (inst : Tools.ToolInstance) :
  dict_keys (Tools.args inst)
  = filter (fun k => negb (k =? "tool_call"))
           (dict_keys (Tools.tool_values inst)).
Proof.
  unfold Tools.args, Tools.model_dump, dict_keys. rewrite map_map.
  induction (Tools.tool_values inst) as [| [k v] l IH]; [reflexivity |].
  cbn [filter map fst mem_str existsb].
  rewrite orb_false_r.
  destruct (k =? "tool_call"); cbn [negb map fst];
    [exact IH | f_equal; exact IH].
Qed.



(** C3: at the documented method [add(self, a: int, b: int)] the Schema
    Builder raises the name-mismatch error instead of emitting the schema
    with [a], [b]: the index that selects the documentation entry counts the
    receiver. The same function without the receiver gets the schema with
    its parameters in signature order. *)
Theorem documented_method_is_rejected :
  Tools.function_tool_schema
    Samples.sample_field_schema Samples.sample_field_defs
    Samples.add_method Samples.provider_tool
  = Raise (ValueError
             "Function parameter name a does not match docstring parameter name b. Make sure that the parameter names match exactly.")
  /\ exists s,
      Tools.function_tool_schema
        Samples.sample_field_schema Samples.sample_field_defs
        Samples.add_function Samples.provider_tool = Ok s
      /\ Tools.schema_parameter_names s = ["a"; "b"].
Proof.
  split; [reflexivity |]. eexists. split; reflexivity.
Qed.

(** C6: for [pick(model_name: str)] the schema exposes [model_name], the
    field is [aliased_model_name], and a tool call that supplies
    [model_name] populates that field; but [args] serializes the argument
    under the internal name [aliased_model_name], not under [model_name]:
    the serialization alias the converter sets is only honoured by a dump
    by alias, which [args] does not ask for. *)
Theorem args_keeps_internal_name :
  exists cls inst s,
    Tools.convert_function_to_tool Samples.pick_function Samples.provider_tool
    = Ok cls
    /\ Tools.tool_schema Samples.sample_field_schema Samples.sample_field_defs
                         cls = Ok s
    /\ Tools.schema_parameter_names s = ["model_name"]
    /\ dict_keys (Tools.model_fields cls)
       = ["tool_call"; "aliased_model_name"]
    /\ Tools.model_validate Samples.accept_all cls Samples.pick_call_data
       = Ok inst
    /\ dict_get "aliased_model_name" (Tools.tool_values inst)
       = Some (JStr "gpt-4o")
    /\ Tools.args inst = [("aliased_model_name", JStr "gpt-4o")]
    /\ dict_get "model_name" (Tools.args inst) = None
    /\ Tools.model_dump true ["tool_call"] inst
       = [("model_name", JStr "gpt-4o")].
Proof.
  do 3 eexists. repeat split; reflexivity.
Qed.

(* ------------------------------------------------------------------ *)
(** ** Cost, streams and the reconstructed call response                *)
(* ------------------------------------------------------------------ *)

Section StreamsAndCost.
Import Core.

Variable price_table : list ((string * string) * (Q * Q)).

Lemma string_append_nil_r (s : string) : s ++ "" = s.
Proof. induction s as [| c s IH]; cbn; [reflexivity | now rewrite IH]. Qed.

Lemma string_append_assoc (a b c : string) : (a ++ b) ++ c = a ++ (b ++ c).
Proof. induction a as [| x a IH]; cbn; [reflexivity | now rewrite IH]. Qed.

Lemma concat_empty_cons (x : string) (l : list string) :
  String.concat "" (x :: l) = x ++ String.concat "" l.
Proof.
  destruct l as [| y l]; cbn [String.concat].
  - now rewrite string_append_nil_r.
  - reflexivity.
Qed.

Lemma latest_last_some {A : Type} (old x : option A) (l : list (option A)) :
  latest (latest old x) (last_some l) = latest old (last_some (x :: l)).
Proof. cbn. destruct (last_some l), x; reflexivity. Qed.

Lemma table_get_cases (provider model_name : string)
      (table : list ((string * string) * (Q * Q))) :
  (exists prices, table_get provider model_name table = Ok prices
                  /\ In ((provider, model_name), prices) table)
  \/ (table_get provider model_name table = Raise (KeyError model_name)
      /\ forall prices, ~ In ((provider, model_name), prices) table).
Proof.
  induction table as [| [[p m] prices] table IH]; cbn.
  - right. split; [reflexivity | intros prices []].
  - destruct ((p =? provider) && (m =? model_name)) eqn:E.
    + apply andb_true_iff in E. destruct E as [Ep Em].
      apply String.eqb_eq in Ep, Em. subst.
      left. exists prices. split; [reflexivity | left; reflexivity].
    + destruct IH as [[prices' [Hget Hin]] | [Hget Hnot]].
      * left. exists prices'. split; [exact Hget | right; exact Hin].
      * right. split; [exact Hget |].
        intros prices' [Heq | Hin]; [| exact (Hnot prices' Hin)].
        injection Heq as -> -> _.
        rewrite !String.eqb_refl in E. discriminate.
Qed.

(** The cost computation returns: no token counts, no table entry and a
    priced model all end in a value. *)
Lemma calculate_cost_never_raises (provider : string) (input output : option Z)
      (model_name : string) :
  exists c, calculate_cost price_table provider input output model_name
            = Ok c.
Proof.
  unfold calculate_cost.
  destruct input as [i |], output as [o |]; try (eexists; reflexivity).
  destruct (table_get_cases provider model_name price_table)
    as [[[prompt completion] [Hget _]] | [Hget _]]; rewrite Hget;
    eexists; reflexivity.
Qed.

(** C8: for a response whose model the price table lacks, and for a
    response without usage data, the cost computation returns null; it
    does not raise. *)
Theorem cost_is_null_without_price_or_usage (r : CallResponse) :
  (forall prices, ~ In ((_provider r, model r), prices) price_table)
  \/ usage r = None ->
  cost price_table r = Ok None.
Proof.
  unfold cost, calculate_cost, cr_input_tokens, cr_output_tokens.
  intros [Habsent | Hnone].
  - destruct (option_map input_tokens (usage r)) as [i |],
             (option_map output_tokens (usage r)) as [o |];
      try reflexivity.
    destruct (table_get_cases (_provider r) (model r) price_table)
      as [[prices [_ Hin]] | [Hget _]].
    + exfalso. exact (Habsent prices Hin).
    + rewrite Hget. reflexivity.
  - rewrite Hnone. reflexivity.
Qed.

Lemma iterate_S (fuel : nat) (s : Stream) :
  iterate price_table (S fuel) s
  = (ys <- next price_table s ;;
     match fst ys with
     | Some _ => iterate price_table fuel (snd ys)
     | None => Ok (Some (snd ys))
     end).
Proof. reflexivity. Qed.

(** A pull from a non-empty source yields its first pair and accumulates
    it. *)
Lemma next_cons (s : Stream) (chunk : Chunk) (tool : option ToolCallInstance)
      (rest : list (Chunk * option ToolCallInstance)) :
  stream s = (chunk, tool) :: rest ->
  exists s1,
    next price_table s = Ok (Some (chunk, tool), s1)
    /\ stream s1 = rest
    /\ stream_provider s1 = stream_provider s
    /\ stream_content s1 = stream_content s ++ chunk_content chunk
    /\ stream_finish_reasons s1
       = latest (stream_finish_reasons s) (chunk_finish_reasons chunk)
    /\ stream_id s1 = latest (stream_id s) (chunk_id chunk)
    /\ stream_usage s1 = latest (stream_usage s) (chunk_usage chunk)
    /\ stream_model s1
       = match chunk_model chunk with
         | Some m => m
         | None => stream_model s
         end
    /\ stream_tool_calls s1
       = match tool with
         | Some t => (stream_tool_calls s ++ [tool_call t])%list
         | None => stream_tool_calls s
         end.
Proof.
  intros Hs. unfold next. rewrite Hs. eexists.
  split; [reflexivity |]. cbn. repeat split.
Qed.

(** Running a stream to exhaustion: the pulls end, and the final state holds
    the accumulators extended by what the remaining pairs carry. *)
Lemma iterate_exhausts (source : list (Chunk * option ToolCallInstance)) :
  forall s : Stream,
    stream s = source ->
    exists s' c,
      iterate price_table (S (List.length source)) s = Ok (Some s')
      /\ phase s' = Exhausted
      /\ stream_provider s' = stream_provider s
      /\ stream_content s' = stream_content s ++ carried_content source
      /\ stream_finish_reasons s'
         = latest (stream_finish_reasons s) (carried_finish_reasons source)
      /\ stream_id s' = latest (stream_id s) (carried_id source)
      /\ stream_usage s' = latest (stream_usage s) (carried_usage source)
      /\ stream_model s' = carried_model (stream_model s) source
      /\ stream_tool_calls s'
         = (stream_tool_calls s ++ carried_tool_calls source)%list
      /\ calculate_cost price_table (stream_provider s')
                        (option_map input_tokens (stream_usage s'))
                        (option_map output_tokens (stream_usage s'))
                        (stream_model s') = Ok c
      /\ stream_cost s' = c
      /\ stream_message_param s'
         = Some (construct_message_param
                   (tool_calls_or_none (stream_tool_calls s'))
                   (stream_content s')).
Proof.
  induction source as [| [chunk tool] rest IH]; intros s Hs.
  - destruct (calculate_cost_never_raises
                (stream_provider s)
                (option_map input_tokens (stream_usage s))
                (option_map output_tokens (stream_usage s))
                (stream_model s)) as [c Hc].
    cbn [List.length iterate]. unfold next. rewrite Hs, Hc. cbn.
    do 2 eexists. split; [reflexivity |]. cbn.
    rewrite string_append_nil_r, app_nil_r.
    unfold carried_finish_reasons, carried_id, carried_usage, carried_model.
    cbn. repeat split; try reflexivity. exact Hc.
  - destruct (next_cons s chunk tool rest Hs)
      as [s1 [Hnext [Hs1 [Hp1 [Hc1 [Hf1 [Hi1 [Hu1 [Hm1 Ht1]]]]]]]]].
    cbn [List.length]. rewrite iterate_S, Hnext. cbn [bind fst snd].
    destruct (IH s1 Hs1)
      as [s' [c [Hrun [Hph [Hprov [Hcont [Hfin [Hid [Hus [Hmod
            [Htools [Hcost [Hc Hmp]]]]]]]]]]]]].
    rewrite Hp1 in Hprov. rewrite Hc1 in Hcont. rewrite Hf1 in Hfin.
    rewrite Hi1 in Hid. rewrite Hu1 in Hus. rewrite Hm1 in Hmod.
    rewrite Ht1 in Htools.
    exists s', c.
    split; [exact Hrun |]. split; [exact Hph |]. split; [exact Hprov |].
    split.
    { rewrite Hcont. unfold carried_content. cbn [map fst].
      rewrite concat_empty_cons, string_append_assoc. reflexivity. }
    split.
    { rewrite Hfin. unfold carried_finish_reasons. cbn [map fst].
      apply latest_last_some. }
    split.
    { rewrite Hid. unfold carried_id. cbn [map fst].
      apply latest_last_some. }
    split.
    { rewrite Hus. unfold carried_usage. cbn [map fst].
      apply latest_last_some. }
    split.
    { rewrite Hmod. unfold carried_model. cbn [map fst last_some].
      destruct (last_some (map (fun p => chunk_model (fst p)) rest));
        [reflexivity |].
      destruct (chunk_model chunk); reflexivity. }
    split.
    { rewrite Htools. unfold carried_tool_calls. cbn [flat_map snd].
      destruct tool; [rewrite <- app_assoc |]; reflexivity. }
    split; [exact Hcost |]. split; [exact Hc | exact Hmp].
Qed.

Lemma latest_none_l {A : Type} (x : option A) : latest None x = x.
Proof. destruct x; reflexivity. Qed.

(** C2: before any chunk is pulled, [cost] and [message_param] of a stream
    are null; iterating the stream to the end of its chunk sequence
    terminates in the exhausted state, where [cost] is the price-table cost
    of the accumulated usage and [message_param] is the assistant message
    built from the accumulated content and tool calls. *)
Theorem stream_cost_and_message_param
        (provider model_name : string)
        (source : list (Chunk * option ToolCallInstance)) :
  stream_cost (new_stream provider model_name source) = None
  /\ stream_message_param (new_stream provider model_name source) = None
  /\ exists s c,
      consume price_table (new_stream provider model_name source)
      = Ok (Some s)
      /\ phase s = Exhausted
      /\ calculate_cost price_table provider
                        (option_map input_tokens (carried_usage source))
                        (option_map output_tokens (carried_usage source))
                        (carried_model model_name source) = Ok c
      /\ stream_cost s = c
      /\ stream_message_param s
         = Some (construct_message_param
                   (tool_calls_or_none (carried_tool_calls source))
                   (carried_content source)).
Proof.
  split; [reflexivity |]. split; [reflexivity |].
  destruct (iterate_exhausts source (new_stream provider model_name source)
                             eq_refl)
    as [s [c [Hrun [Hph [Hprov [Hcont [Hfin [Hid [Hus [Hmod
          [Htools [Hcost [Hc Hmp]]]]]]]]]]]]].
  cbn [new_stream stream_provider stream_content stream_finish_reasons
       stream_id stream_usage stream_model stream_tool_calls]
    in Hprov, Hcont, Hfin, Hid, Hus, Hmod, Htools.
  rewrite latest_none_l in Hfin. rewrite latest_none_l in Hid.
  rewrite latest_none_l in Hus.
  rewrite app_nil_l in Htools.
  exists s, c. split; [exact Hrun |]. split; [exact Hph |].
  split; [| split; [exact Hc |]].
  - rewrite Hprov, Hus, Hmod in Hcost. exact Hcost.
  - rewrite Hmp, Htools, Hcont. reflexivity.
Qed.


End StreamsAndCost.

Lemma cost_is_null_without_price_or_usage_witness :
  Core.cost Samples.test_prices Samples.unpriced_response = Ok None.
Proof.
  apply (cost_is_null_without_price_or_usage
           Samples.test_prices Samples.unpriced_response).
  left. intros prices [H | [H | []]]; discriminate H.
Defined.


(** The costs and the message the stream tests expect: 1.38e-6 for one input
    and one output token of [llama3-70b-8192], 1.8e-5 for [command-r-plus],
    and the assistant message with the content and the tool call. *)
Example groq_stream_cost_and_message :
  exists s,
    Core.consume Samples.test_prices
                 (Core.new_stream "groq" "llama3-70b-8192" Samples.groq_chunks)
    = Ok (Some s)
    /\ Core.stream_cost s = Some (Qred (138 # 100000000))
    /\ Core.stream_message_param s
       = Some {| Core.role := "assistant";
                 Core.message_content := "content";
                 Core.message_tool_calls := Some [Samples.format_book_call] |}.
Proof. eexists. repeat split; reflexivity. Qed.

Example cohere_cost :
  Core.calculate_cost Samples.test_prices "cohere" (Some 1%Z) (Some 1%Z)
                      "command-r-plus"
  = Ok (Some (Qred (18 # 1000000))).
Proof. reflexivity. Qed.

(* ------------------------------------------------------------------ *)
(** ** What [tool_schema] keeps                                         *)
(* ------------------------------------------------------------------ *)

Section SchemaContents.
Import Tools Documentation.

Variable field_json_schema : string -> FieldInfo -> list (string * Json).
Variable field_defs : FieldInfo -> list (string * Json).






End SchemaContents.


(* ------------------------------------------------------------------ *)
(** ** The fields [convert_function_to_tool] creates                    *)
(* ------------------------------------------------------------------ *)

Section ConvertedFields.
Import Tools Documentation.

Lemma dict_keys_set {V : Type} (d : list (string * V)) (k k' : string)
      (v : V) :
  In k (dict_keys (dict_set d k' v)) <-> In k (dict_keys d) \/ k = k'.
Proof.
  induction d as [| [k0 v0] d IH]; cbn.
  - split; [intros [<- | []]; right; reflexivity | intros [[] | ->]; now left].
  - destruct (k0 =? k') eqn:E; cbn.
    + apply String.eqb_eq in E. subst k0. intuition congruence.
    + unfold dict_keys in IH. rewrite IH. intuition.
Qed.

Lemma dict_keys_update {V : Type} (l : list (string * V)) :
  forall (d : list (string * V)) (k : string),
    In k (dict_keys (dict_update d l))
    <-> In k (dict_keys d) \/ In k (dict_keys l).
Proof.
  unfold dict_update.
  induction l as [| [k' v] l IH]; intros d k.
  - cbn. intuition.
  - cbn [fold_left fst snd]. rewrite IH, dict_keys_set.
    unfold dict_keys. cbn. intuition.
Qed.

(** What the loop adds: one entry per non-receiver parameter, in signature
    order, each the field of its parameter. *)
Lemma collect_fields_added (ps : list SigParameter) :
  forall (i : nat) (docs : list DocstringParam)
         (fd fd' : list (string * FieldInfo)),
    collect_fields i ps docs fd = Ok fd' ->
    exists entries,
      fd' = dict_update fd entries
      /\ Forall2 (fun p e => exists hint o,
                      annotation p = Some hint
                      /\ e = field_of_parameter p hint o)
                 (filter (fun p => negb (is_receiver (name p))) ps) entries.
Proof.
  induction ps as [| a ps IH]; intros i docs fd fd' Hrun.
  - cbn in Hrun. injection Hrun as <-. exists []. split; constructor.
  - cbn [collect_fields] in Hrun. cbn [filter].
    destruct (is_receiver (name a)) eqn:Hr; cbn [negb].
    + exact (IH _ _ _ _ Hrun).
    + destruct (annotation a) as [hint |] eqn:Ha; [| discriminate].
      destruct (docstring_check i a docs) as [o | e]; [| discriminate].
      cbn [bind] in Hrun.
      destruct (IH _ _ _ _ Hrun) as [entries [Hfd Hall]].
      exists (field_of_parameter a hint o :: entries). split.
      * exact Hfd.
      * constructor; [| exact Hall]. exists hint, o. split; [exact Ha |].
        reflexivity.
Qed.

Lemma added_keys (ps : list SigParameter) (entries : list (string * FieldInfo)) :
  Forall2 (fun p e => exists hint o,
               annotation p = Some hint /\ e = field_of_parameter p hint o)
          ps entries ->
  dict_keys entries = map (fun p => field_key (name p)) ps.
Proof.
  induction 1 as [| p e ps entries [hint [o [_ ->]]] _ IH]; [reflexivity |].
  cbn. unfold dict_keys in IH. rewrite IH. f_equal.
  apply field_of_parameter_keys.
Qed.

(** The field names of a converted class: those of the base, and the field
    key of every parameter that is not a receiver. *)
Lemma converted_field_keys (f : Function) (base cls : ModelClass) :
  convert_function_to_tool f base = Ok cls ->
  forall k,
    In k (dict_keys (model_fields cls))
    <-> In k (dict_keys (model_fields base))
        \/ exists p, In p (fn_parameters f)
                     /\ is_receiver (name p) = false
                     /\ k = field_key (name p).
Proof.
  unfold convert_function_to_tool.
  destruct (negb (opt_str_truthy (fn_doc f))); [discriminate |].
  destruct (collect_fields 0 (fn_parameters f) (params (fn_docstring f)) [])
    as [fd' | e] eqn:Hrun; [| discriminate].
  cbn [bind]. intros H k. injection H as <-. cbn [model_fields create_model tool_fn].
  destruct (collect_fields_added _ _ _ _ _ Hrun) as [entries [-> Hall]].
  rewrite !dict_keys_update. rewrite (added_keys _ _ Hall).
  cbn [dict_keys map In]. rewrite in_map_iff.
  split.
  - intros [Hb | [[] | [p [<- Hp]]]]; [left; exact Hb |].
    apply filter_In in Hp. destruct Hp as [Hp Hr].
    right. exists p. repeat split; [exact Hp |].
    now destruct (is_receiver (name p)).
  - intros [Hb | [p [Hp [Hr ->]]]]; [left; exact Hb |].
    right. right. exists p. split; [reflexivity |].
    apply filter_In. split; [exact Hp |]. now rewrite Hr.
Qed.

(** The fields of the class built from a function are named after the
    base's fields and after the parameters that are not receivers, under
    their field keys: [self] and [cls] never become fields. *)
Theorem converted_class_fields (f : Function) (base cls : ModelClass) :
  convert_function_to_tool f base = Ok cls ->
  forall k,
    In k (dict_keys (model_fields cls))
    <-> In k (dict_keys (model_fields base))
        \/ exists p, In p (fn_parameters f)
                     /\ is_receiver (name p) = false
                     /\ k = field_key (name p).
Proof. exact (converted_field_keys f base cls). Qed.

Lemma field_key_unreserved (n : string) :
  is_receiver n = false ->
  startswith "model_" (field_key n) = false
  /\ is_receiver (field_key n) = false.
Proof.
  intros Hr. unfold field_key.
  destruct (startswith "model_" n) eqn:E.
  - split; reflexivity.
  - split; assumption.
Qed.

(** No field that conversion adds to the base's is named in pydantic's
    reserved [model_] namespace, and none is named [self] or [cls]. *)
Theorem converted_fields_avoid_reserved_names
        (f : Function) (base cls : ModelClass) (k : string) :
  convert_function_to_tool f base = Ok cls ->
  In k (dict_keys (model_fields cls)) ->
  ~ In k (dict_keys (model_fields base)) ->
  startswith "model_" k = false /\ is_receiver k = false.
Proof.
  intros Hconv Hk Hnot.
  apply (converted_field_keys f base cls Hconv) in Hk.
  destruct Hk as [Hb | [p [_ [Hr ->]]]]; [contradiction |].
  apply field_key_unreserved. exact Hr.
Qed.



End ConvertedFields.

Lemma converted_class_fields_witness :
  exists cls,
    Tools.convert_function_to_tool Cases.square_method Samples.provider_tool
    = Ok cls
    /\ dict_keys (Tools.model_fields cls) = ["tool_call"; "a"]
    /\ forall k,
        In k (dict_keys (Tools.model_fields cls))
        <-> In k (dict_keys (Tools.model_fields Samples.provider_tool))
            \/ exists p, In p (Tools.fn_parameters Cases.square_method)
                         /\ Tools.is_receiver (Tools.name p) = false
                         /\ k = Documentation.field_key (Tools.name p).
Proof.
  eexists. split; [reflexivity |]. split; [reflexivity |].
  apply (converted_class_fields Cases.square_method Samples.provider_tool).
  reflexivity.
Defined.

Lemma converted_fields_avoid_reserved_names_witness :
  startswith "model_" "aliased_model_name" = false
  /\ Tools.is_receiver "aliased_model_name" = false.
Proof.
  eapply (converted_fields_avoid_reserved_names
            Samples.pick_function Samples.provider_tool).
  - reflexivity.
  - cbn. right. left. reflexivity.
  - cbn. intros [H | []]. discriminate H.
Defined.


(* ------------------------------------------------------------------ *)
(** ** Required parameters and missing descriptions                     *)
(* ------------------------------------------------------------------ *)

Section RequiredParameters.
Import Tools Documentation.

Variable field_json_schema : string -> FieldInfo -> list (string * Json).
Variable field_defs : FieldInfo -> list (string * Json).







(** A function whose docstring yields neither a short nor a long
    description (an [Args] section alone, or blank text) is converted, but
    the schema of its tool class cannot be built: [tool_schema] raises for
    want of a description. *)
Theorem description_is_checked_at_schema_time
        (f : Function) (base cls : ModelClass) :
  convert_function_to_tool f base = Ok cls ->
  str_truthy (tool_doc (fn_docstring f)) = false ->
  tool_schema field_json_schema field_defs cls
  = Raise (ValueError "Tool must have a docstring description.").
Proof.
  unfold convert_function_to_tool.
  destruct (negb (opt_str_truthy (fn_doc f))); [discriminate |].
  destruct (collect_fields 0 (fn_parameters f) (params (fn_docstring f)) [])
    as [fd' | e]; [| discriminate].
  cbn [bind]. intros H Hdoc. injection H as <-.
  unfold tool_schema, tool_schema_of, model_json_schema.
  cbn [ms_description create_model cls_doc]. rewrite Hdoc. reflexivity.
Qed.

End RequiredParameters.


Lemma description_is_checked_at_schema_time_witness :
  exists cls,
    Tools.convert_function_to_tool Cases.args_only_docstring
                                   Samples.provider_tool = Ok cls
    /\ Tools.tool_schema Samples.sample_field_schema Samples.sample_field_defs
                         cls
       = Raise (ValueError "Tool must have a docstring description.").
Proof.
  eexists. split; [reflexivity |].
  apply (description_is_checked_at_schema_time
           Samples.sample_field_schema Samples.sample_field_defs
           Cases.args_only_docstring Samples.provider_tool);
    reflexivity.
Defined.

(* ------------------------------------------------------------------ *)
(** ** [tool.fn] across conversions                                     *)
(* ------------------------------------------------------------------ *)

Section AttachedFunction.
Import Tools.
Import ClassStore.

Lemma set_fn_length (store : Store) (c : nat) (f : Function) :
  List.length (set_fn store c f) = List.length store.
Proof.
  revert c. induction store as [| o store IH]; intros [| c]; cbn;
    try reflexivity.
  now rewrite IH.
Qed.

Lemma set_fn_same (store : Store) (c : nat) (f : Function)
      (o : ClassObject) :
  nth_error store c = Some o ->
  exists o', nth_error (set_fn store c f) c = Some o'
             /\ co_fn o' = Some f.
Proof.
  revert c. induction store as [| o0 store IH]; intros [| c] H; cbn in *;
    try discriminate.
  - eexists. split; reflexivity.
  - exact (IH c H).
Qed.

Lemma set_fn_other (store : Store) (c c' : nat) (f : Function) :
  c <> c' -> nth_error (set_fn store c f) c' = nth_error store c'.
Proof.
  revert c c'. induction store as [| o store IH]; intros [| c] [| c'] H;
    cbn; try reflexivity.
  - contradiction.
  - apply IH. congruence.
Qed.

Lemma class_view_valid (store : Store) (c : nat) (view : ModelClass) :
  class_view store c = Some view ->
  exists o, nth_error store c = Some o /\ (c < List.length store)%nat.
Proof.
  unfold class_view. destruct (nth_error store c) as [o |] eqn:E;
    [| discriminate].
  intros _. exists o. split; [reflexivity |].
  apply nth_error_Some. congruence.
Qed.

(** The shape of the store after a successful conversion. *)
Lemma convert_store_shape (f : Function) (base c : nat)
      (store store' : Store) :
  convert_function_to_tool f base store = Ok (c, store') ->
  (base < List.length store)%nat
  /\ c = List.length store
  /\ exists new,
      store' = (set_fn store base f ++ [new])%list
      /\ co_base new = Some base
      /\ co_fn new = None.
Proof.
  unfold convert_function_to_tool.
  destruct (class_view store base) as [view |] eqn:Ev; [| discriminate].
  destruct (class_view_valid _ _ _ Ev) as [o [_ Hlt]].
  destruct (Tools.convert_function_to_tool f view) as [cls | e];
    [| discriminate].
  cbn [bind tool_fn fst snd]. intros H. injection H as <- <-.
  split; [exact Hlt |]. split; [apply set_fn_length |].
  eexists. split; [reflexivity |]. split; reflexivity.
Qed.

(** Once [fn] is set on [base], looking it up from [base] finds it,
    whatever classes were created since. *)
Lemma lookup_fn_base (store tail : Store) (base : nat) (f : Function)
      (fuel : nat) :
  (base < List.length store)%nat ->
  lookup_fn (S fuel) (set_fn store base f ++ tail)%list base = Ok f.
Proof.
  intros Hlt. cbn [lookup_fn].
  destruct (nth_error store base) as [o |] eqn:E.
  2:{ apply nth_error_None in E. lia. }
  destruct (set_fn_same store base f o E) as [o' [Ho' Hf]].
  rewrite nth_error_app1 by (rewrite set_fn_length; exact Hlt).
  rewrite Ho', Hf. reflexivity.
Qed.

(** A class without a [fn] of its own, whose base is [base], resolves [fn]
    to what [base] holds. *)
Lemma fn_of_derived (store tail : Store) (base c : nat) (f : Function)
      (o : ClassObject) :
  (base < List.length store)%nat ->
  nth_error (set_fn store base f ++ tail)%list c = Some o ->
  co_fn o = None ->
  co_base o = Some base ->
  fn_of (set_fn store base f ++ tail)%list c = Ok f.
Proof.
  intros Hlt Ho Hfn Hb. unfold fn_of.
  cbn [lookup_fn]. rewrite Ho, Hfn, Hb.
  rewrite length_app, set_fn_length.
  assert (Hfuel : exists n,
             (List.length store + List.length tail = S n)%nat).
  { exists (List.length store + List.length tail - 1)%nat. lia. }
  destruct Hfuel as [n ->]. apply lookup_fn_base. exact Hlt.
Qed.

End AttachedFunction.

Section FunctionOfATool.
Import Tools.
Import ClassStore.

Lemma fn_resolved_after_conversion (f : Function) (base c : nat)
      (store store' : Store) :
  convert_function_to_tool f base store = Ok (c, store') ->
  fn_of store' c = Ok f /\ fn_of store' base = Ok f.
Proof.
  intros H.
  destruct (convert_store_shape _ _ _ _ _ H)
    as [Hlt [-> [new [-> [Hb Hfn]]]]].
  split.
  - apply (fn_of_derived store [new] base (List.length store) f new Hlt);
      [| exact Hfn | exact Hb].
    rewrite nth_error_app2 by (rewrite set_fn_length; lia).
    rewrite set_fn_length, Nat.sub_diag. reflexivity.
  - unfold fn_of. apply lookup_fn_base. exact Hlt.
Qed.

(** Right after a conversion, [fn] of the new tool class is the converted
    function, and so is [fn] of the base class itself, on which the
    property was set. *)
Theorem fn_after_conversion (f : Function) (base c : nat)
        (store store' : Store) :
  convert_function_to_tool f base store = Ok (c, store') ->
  fn_of store' c = Ok f /\ fn_of store' base = Ok f.
Proof. exact (fn_resolved_after_conversion f base c store store'). Qed.

(** Converting a second function with the same base class changes what
    [fn] returns for the tool class of the first: both classes then resolve
    [fn] to the second function, since the property lives on the shared
    base. *)
Theorem fn_follows_the_latest_conversion
        (f1 f2 : Function) (base c1 c2 : nat) (store store1 store2 : Store) :
  convert_function_to_tool f1 base store = Ok (c1, store1) ->
  convert_function_to_tool f2 base store1 = Ok (c2, store2) ->
  fn_of store1 c1 = Ok f1
  /\ fn_of store2 c1 = Ok f2
  /\ fn_of store2 c2 = Ok f2.
Proof.
  intros H1 H2.
  destruct (fn_resolved_after_conversion f1 base c1 store store1 H1)
    as [Hc1 _].
  destruct (fn_resolved_after_conversion f2 base c2 store1 store2 H2)
    as [Hc2 _].
  split; [exact Hc1 |]. split; [| exact Hc2].
  destruct (convert_store_shape _ _ _ _ _ H1)
    as [Hlt [-> [new1 [-> [Hb1 Hfn1]]]]].
  destruct (convert_store_shape _ _ _ _ _ H2)
    as [Hlt2 [_ [new2 [-> [_ _]]]]].
  apply (fn_of_derived _ [new2] base (List.length store) f2 new1 Hlt2);
    [| exact Hfn1 | exact Hb1].
  rewrite nth_error_app1
    by (rewrite set_fn_length, length_app, set_fn_length; cbn; lia).
  rewrite set_fn_other by lia.
  rewrite nth_error_app2 by (rewrite set_fn_length; lia).
  rewrite set_fn_length, Nat.sub_diag. reflexivity.
Qed.

End FunctionOfATool.

Lemma fn_after_conversion_witness :
  exists c store',
    ClassStore.convert_function_to_tool Samples.add_function 0
                                        Cases.provider_store
    = Ok (c, store')
    /\ ClassStore.fn_of store' c = Ok Samples.add_function
    /\ ClassStore.fn_of store' 0 = Ok Samples.add_function.
Proof.
  do 2 eexists. split; [reflexivity |].
  apply (fn_after_conversion Samples.add_function 0 _ Cases.provider_store).
  reflexivity.
Defined.

Lemma fn_follows_the_latest_conversion_witness :
  exists c1 c2 store1 store2,
    ClassStore.convert_function_to_tool Samples.add_function 0
                                        Cases.provider_store
    = Ok (c1, store1)
    /\ ClassStore.convert_function_to_tool Cases.greet_function 0 store1
       = Ok (c2, store2)
    /\ ClassStore.fn_of store1 c1 = Ok Samples.add_function
    /\ ClassStore.fn_of store2 c1 = Ok Cases.greet_function
    /\ ClassStore.fn_of store2 c2 = Ok Cases.greet_function.
Proof.
  do 4 eexists. split; [reflexivity |]. split; [reflexivity |].
  apply (fn_follows_the_latest_conversion
           Samples.add_function Cases.greet_function 0 _ _
           Cases.provider_store);
    reflexivity.
Defined.

(* ------------------------------------------------------------------ *)
(** ** Tools from schemas and from base types                           *)
(* ------------------------------------------------------------------ *)

Section SchemaConverters.
Import Tools Documentation Converters.

Variable field_json_schema : string -> FieldInfo -> list (string * Json).
Variable field_defs : FieldInfo -> list (string * Json).

Lemma dict_get_set_same {V : Type} (d : list (string * V)) (k : string)
      (v : V) :
  dict_get k (dict_set d k v) = Some v.
Proof.
  induction d as [| [k0 v0] d IH]; cbn.
  - now rewrite String.eqb_refl.
  - destruct (k0 =? k) eqn:E; cbn.
    + now rewrite String.eqb_refl.
    + now rewrite E.
Qed.

Lemma dict_get_set_other {V : Type} (d : list (string * V)) (k k' : string)
      (v : V) :
  k <> k' -> dict_get k (dict_set d k' v) = dict_get k d.
Proof.
  intros Hne. induction d as [| [k0 v0] d IH]; cbn.
  - apply String.eqb_neq in Hne. rewrite String.eqb_sym in Hne.
    now rewrite Hne.
  - destruct (k0 =? k') eqn:E; cbn.
    + apply String.eqb_eq in E. subst k0.
      assert (E' : (k' =? k) = false)
        by (apply String.eqb_neq; congruence).
      now rewrite E'.
    + destruct (k0 =? k); [reflexivity | exact IH].
Qed.

(** A key bound once in the pairs of an update is bound to that value
    afterwards, whatever the dictionary held. *)
Lemma dict_get_update {V : Type} (l : list (string * V)) :
  forall (d : list (string * V)) (k : string) (v : V),
    NoDup (dict_keys l) ->
    In (k, v) l ->
    dict_get k (dict_update d l) = Some v.
Proof.
  unfold dict_update.
  induction l as [| [k0 v0] l IH]; intros d k v Hnd Hin; [destruct Hin |].
  cbn in Hnd. apply NoDup_cons_iff in Hnd. destruct Hnd as [Hk0 Hnd].
  cbn [fold_left fst snd]. destruct Hin as [Heq | Hin].
  - injection Heq as -> ->.
    assert (Hkeep : forall (l' : list (string * V)) d',
               ~ In k (dict_keys l') ->
               dict_get k (fold_left
                             (fun acc kv => dict_set acc (fst kv) (snd kv))
                             l' d')
               = dict_get k d').
    { induction l' as [| [k1 v1] l' IH']; intros d' Hk; [reflexivity |].
      cbn [fold_left fst snd]. rewrite IH'.
      - apply dict_get_set_other. intros ->. apply Hk. left. reflexivity.
      - intros Hin'. apply Hk. right. exact Hin'. }
    rewrite Hkeep by exact Hk0. apply dict_get_set_same.
  - apply IH; assumption.
Qed.

(** A tool built from a schema always has a description, the schema's own
    or the generated one, so that its tool schema is built without error,
    under the name of the schema followed by [Tool]. *)
Theorem base_model_tool_is_described (schema base : ModelClass) :
  exists s,
    tool_schema field_json_schema field_defs
                (convert_base_model_to_tool schema base) = Ok s
    /\ ts_name s = cls_name schema ++ "Tool".
Proof.
  unfold tool_schema, tool_schema_of, model_json_schema,
    convert_base_model_to_tool.
  cbn [ms_description ms_title ms_properties create_model cls_doc cls_name].
  destruct (cls_doc schema) as [d |]; cbn [opt_str_truthy].
  - destruct (str_truthy d) eqn:Ed.
    + rewrite Ed, Ed. eexists. split; reflexivity.
    + cbn. eexists. split; reflexivity.
  - cbn. eexists. split; reflexivity.
Qed.

(** Every field of the schema is a field of the tool, with the same field
    information, also when the base declares a field of that name. *)
Theorem base_model_fields_are_passed_on
        (schema base : ModelClass) (k : string) (fi : FieldInfo) :
  NoDup (dict_keys (model_fields schema)) ->
  In (k, fi) (model_fields schema) ->
  dict_get k (model_fields (convert_base_model_to_tool schema base))
  = Some fi.
Proof.
  intros Hnd Hin. unfold convert_base_model_to_tool.
  cbn [create_model model_fields].
  rewrite (dict_update_fresh (model_fields schema) [])
    by (auto; intros k' _ []).
  cbn [app]. apply dict_get_update; assumption.
Qed.



End SchemaConverters.

Lemma base_model_fields_are_passed_on_witness :
  dict_get "author"
           (Tools.model_fields
              (Converters.convert_base_model_to_tool Cases.book_schema
                                                     Samples.provider_tool))
  = Some (Cases.str_field None).
Proof.
  apply (base_model_fields_are_passed_on
           Cases.book_schema Samples.provider_tool "author"
           (Cases.str_field None)).
  - repeat constructor; cbn; intuition discriminate.
  - cbn. right. left. reflexivity.
Defined.


(* ------------------------------------------------------------------ *)
(** ** The arguments of a validated tool                                *)
(* ------------------------------------------------------------------ *)

Section ValidatedArguments.
Import Tools.

Variable validate_value : PyType -> Json -> option Json.

Lemma validate_fields_keys (fields : list (string * FieldInfo)) :
  forall (data values : list (string * Json)),
    validate_fields validate_value fields data = Ok values ->
    dict_keys values = dict_keys fields.
Proof.
  induction fields as [| [k fi] fields IH]; intros data values H.
  - cbn in H. injection H as <-. reflexivity.
  - cbn [validate_fields] in H.
    destruct (match dict_get (validation_key k fi) data with
              | Some raw =>
                  match validate_value (fi_annotation fi) raw with
                  | Some v => Ok v
                  | None => Raise (ValidationError (validation_key k fi))
                  end
              | None =>
                  match fi_default fi with
                  | Some d => Ok d
                  | None => Raise (ValidationError (validation_key k fi))
                  end
              end) as [v | e]; [| discriminate].
    cbn [bind] in H.
    destruct (validate_fields validate_value fields data) as [vs | e] eqn:E;
      [| discriminate].
    cbn [bind] in H. injection H as <-.
    cbn. f_equal. exact (IH data vs E).
Qed.

(** The arguments of a tool validated from any data are listed under the
    field names of its class, in field order and without ["tool_call"],
    whatever aliases the data used. *)
Theorem args_are_keyed_by_field_names
        (cls : ModelClass) (data : list (string * Json))
        (inst : ToolInstance) :
  model_validate validate_value cls data = Ok inst ->
  dict_keys (args inst)
  = filter (fun k => negb (k =? "tool_call")) (dict_keys (model_fields cls)).
Proof.
  unfold model_validate.
  destruct (validate_fields validate_value (model_fields cls) data)
    as [vs |] eqn:E; [| discriminate].
  cbn [bind]. intros H. injection H as <-.
  rewrite args_keys_are_field_names. cbn [tool_values].
  now rewrite (validate_fields_keys _ _ _ E).
Qed.

End ValidatedArguments.

Lemma args_are_keyed_by_field_names_witness :
  dict_keys
    (Tools.args
       {| Tools.tool_cls := Samples.add_tool;
          Tools.tool_values :=
            [("tool_call", JNull); ("a", JNum 1); ("b", JNum 2)] |})
  = filter (fun k => negb (k =? "tool_call"))
           (dict_keys (Tools.model_fields Samples.add_tool)).
Proof.
  apply (args_are_keyed_by_field_names
           Samples.accept_all Samples.add_tool
           [("b", JNum 2); ("a", JNum 1); ("tool_call", JNull)]).
  reflexivity.
Defined.

(* ------------------------------------------------------------------ *)
(** ** The name of a converted function                                 *)
(* ------------------------------------------------------------------ *)

Section ToolName.
Import Tools Signature.







Variable field_json_schema : string -> FieldInfo -> list (string * Json).
Variable field_defs : FieldInfo -> list (string * Json).


End ToolName.


(* ------------------------------------------------------------------ *)
(** ** Token counts and metadata of an Anthropic chunk                  *)
(* ------------------------------------------------------------------ *)

Section AnthropicMetadata.
Import Anthropic.

(** [model], [id] and [input_tokens] of a chunk are non-null exactly on a
    message-start event, where they are those of the message;
    [output_tokens] is non-null exactly when [usage] is, so a message-delta
    event reports output tokens but no input tokens, and every other event
    reports none. *)
Theorem chunk_metadata_and_tokens :
  (forall chunk,
      (model chunk <> None <-> exists m, chunk = RawMessageStartEvent m)
      /\ (id chunk <> None <-> exists m, chunk = RawMessageStartEvent m)
      /\ (chunk_input_tokens chunk <> None
          <-> exists m, chunk = RawMessageStartEvent m)
      /\ (chunk_output_tokens chunk <> None <-> usage chunk <> None))
  /\ (forall m,
         model (RawMessageStartEvent m) = Some (message_model m)
         /\ id (RawMessageStartEvent m) = Some (message_id m)
         /\ chunk_input_tokens (RawMessageStartEvent m)
            = Some (input_tokens (message_usage m))
         /\ chunk_output_tokens (RawMessageStartEvent m)
            = Some (output_tokens (message_usage m)))
  /\ (forall d u,
         chunk_input_tokens (RawMessageDeltaEvent d u) = None
         /\ chunk_output_tokens (RawMessageDeltaEvent d u)
            = Some (delta_output_tokens u)).
Proof.
  split; [| split; [intros m; repeat split | intros d u; split; reflexivity]].
  intros chunk.
  destruct chunk as [m | d u | | i b | i d | i]; cbn;
    repeat split;
    try (intros _; eexists; reflexivity);
    try (intros _; discriminate);
    try (intros H; exfalso; apply H; reflexivity);
    try (intros [m' H]; discriminate H);
    try (intros H _; apply H; reflexivity).
Qed.

End AnthropicMetadata.

(* ------------------------------------------------------------------ *)
(** ** [parse_recommendation]                                           *)
(* ------------------------------------------------------------------ *)

Section ParseRecommendation.
Import Examples Signature.

Lemma prefix_app_long (sep : string) :
  forall x y : string,
    (String.length sep <= String.length x)%nat ->
    String.prefix sep (x ++ y) = String.prefix sep x.
Proof.
  induction sep as [| a sep IH]; intros x y Hlen.
  - destruct x, y; reflexivity.
  - destruct x as [| b x]; cbn in Hlen; [lia |].
    cbn. destruct (ascii_dec a b); [apply IH; lia | reflexivity].
Qed.

Lemma prefix_true_app (sep : string) :
  forall s : string,
    String.prefix sep s = true -> exists tail, s = sep ++ tail.
Proof.
  induction sep as [| a sep IH]; intros s H.
  - exists s. reflexivity.
  - destruct s as [| b s]; cbn in H; [discriminate |].
    destruct (ascii_dec a b) as [-> |]; [| discriminate].
    destruct (IH s H) as [tail ->]. exists tail. reflexivity.
Qed.

Lemma string_length_append (a b : string) :
  String.length (a ++ b) = (String.length a + String.length b)%nat.
Proof. induction a as [| c a IH]; cbn; [reflexivity | now rewrite IH]. Qed.

Lemma prefix_app_self (sep tail : string) :
  String.prefix sep (sep ++ tail) = true.
Proof.
  induction sep as [| a sep IH]; cbn.
  - destruct tail; reflexivity.
  - destruct (ascii_dec a a); [exact IH | contradiction].
Qed.

Lemma split_sep_skip (sep : string) (p : string) :
  forall (tail cur : string),
    split_sep sep (String.length p) cur (p ++ tail)
    = split_sep sep 0 cur tail.
Proof.
  induction p as [| c p IH]; intros tail cur; cbn.
  - destruct tail; reflexivity.
  - apply IH.
Qed.

Lemma free_of_tail (sep : string) (c : ascii) (s : string) :
  free_of sep (String c s) -> free_of sep s.
Proof. intros H u v ->. exact (H (String c u) v eq_refl). Qed.

Lemma split_sep_free (sep : string) (a : string) :
  forall cur : string,
    free_of sep a -> split_sep sep 0 cur a = [cur ++ a].
Proof.
  induction a as [| c a IH]; intros cur Hfree; cbn [split_sep].
  - now rewrite string_append_nil_r.
  - rewrite (Hfree EmptyString (String c a) eq_refl).
    rewrite IH by exact (free_of_tail sep c a Hfree).
    now rewrite string_append_assoc.
Qed.

Lemma split_by_first (title : string) :
  forall (author cur : string),
    free_of " by " (title ++ " by") ->
    split_sep " by " 0 cur (title ++ " by " ++ author)
    = (cur ++ title) :: split_sep " by " 0 EmptyString author.
Proof.
  induction title as [| c title IH]; intros author cur Hfree.
  - rewrite string_append_nil_r.
    change (EmptyString ++ " by " ++ author) with (String " " ("by " ++ author)).
    assert (Hp : String.prefix " by " (String " " ("by " ++ author)) = true)
      by exact (prefix_app_self " by " author).
    cbn [split_sep]. rewrite Hp.
    exact (f_equal (cons cur)
                   (split_sep_skip " by " "by " author EmptyString)).
  - change (String c title ++ " by " ++ author)
      with (String c (title ++ " by " ++ author)).
    cbn [split_sep].
    assert (Hno : String.prefix " by " (String c (title ++ " by " ++ author))
                  = false).
    { change (String c (title ++ " by " ++ author))
        with (String c title ++ " by " ++ author).
      replace (String c title ++ " by " ++ author)
        with ((String c title ++ " by") ++ " " ++ author)
        by (rewrite string_append_assoc; reflexivity).
      rewrite prefix_app_long.
      - exact (Hfree EmptyString _ eq_refl).
      - cbn. rewrite string_length_append. cbn. lia. }
    rewrite Hno.
    rewrite IH by exact (free_of_tail " by " c _ Hfree).
    now rewrite string_append_assoc.
Qed.

(** A content made of a title, [" by "] and an author is parsed back into
    the two, provided the separator occurs neither in the author nor
    before the end of the title (a title ending in [" by"] followed by the
    separator would be cut earlier). *)
Theorem parse_recommendation_round_trip (title author : string) :
  free_of " by " (title ++ " by") ->
  free_of " by " author ->
  parse_recommendation (title ++ " by " ++ author) = Ok (title, author).
Proof.
  intros Ht Ha. unfold parse_recommendation, split.
  rewrite (split_by_first title author EmptyString Ht).
  rewrite (split_sep_free " by " author EmptyString Ha).
  reflexivity.
Qed.

(** A content in which [" by "] does not occur cannot be unpacked into a
    title and an author: the parser raises [ValueError]. *)
Theorem parse_recommendation_needs_separator (content : string) :
  free_of " by " content ->
  parse_recommendation content
  = Raise (ValueError "not enough values to unpack (expected 2, got 1)").
Proof.
  intros H. unfold parse_recommendation, split.
  rewrite (split_sep_free " by " content EmptyString H). reflexivity.
Qed.

Lemma split_sep_not_nil (sep : string) (s : string) :
  forall (skip : nat) (cur : string), split_sep sep skip cur s <> [].
Proof.
  induction s as [| c s IH]; intros skip cur; cbn [split_sep];
    [discriminate |].
  destruct skip as [| k]; [| apply IH].
  destruct (String.prefix sep (String c s)); [discriminate | apply IH].
Qed.

(** Joining the pieces of a split with the separator gives the string
    back. *)
Lemma join_split (sep : string) (n : nat) :
  sep <> EmptyString ->
  forall (s cur : string),
    (String.length s <= n)%nat ->
    String.concat sep (split_sep sep 0 cur s) = cur ++ s.
Proof.
  intros Hsep. induction n as [| n IH]; intros s cur Hlen.
  - destruct s; [| cbn in Hlen; lia]. cbn. now rewrite string_append_nil_r.
  - destruct s as [| c s]; [cbn; now rewrite string_append_nil_r |].
    cbn [split_sep].
    destruct (String.prefix sep (String c s)) eqn:Hp.
    + destruct (prefix_true_app sep _ Hp) as [tail Htail].
      destruct sep as [| a sep']; [contradiction |].
      cbn in Htail. injection Htail as <- ->.
      cbn [String.length Nat.sub]. rewrite Nat.sub_0_r.
      rewrite split_sep_skip.
      pose proof (split_sep_not_nil (String c sep') tail 0 EmptyString) as Hne.
      specialize (IH tail EmptyString).
      destruct (split_sep (String c sep') 0 EmptyString tail)
        as [| x xs] eqn:Ex; [contradiction |].
      cbn [String.concat] in IH |- *.
      rewrite IH.
      * cbn. reflexivity.
      * cbn in Hlen. rewrite string_length_append in Hlen. lia.
    + rewrite IH by (cbn in Hlen; lia).
      now rewrite string_append_assoc.
Qed.

(** Whatever the parser returns can be put together again: a parsed
    content is the title, [" by "] and the author. *)
Theorem parse_recommendation_inverse (content title author : string) :
  parse_recommendation content = Ok (title, author) ->
  content = title ++ " by " ++ author.
Proof.
  unfold parse_recommendation, split. intros H.
  pose proof (join_split " by " (String.length content)
                         ltac:(discriminate) content EmptyString
                         (Nat.le_refl _)) as Hjoin.
  destruct (split_sep " by " 0 EmptyString content)
    as [| t [| a [| x rest]]]; try discriminate.
  injection H as <- <-. cbn [String.concat] in Hjoin.
  symmetry. exact Hjoin.
Qed.

End ParseRecommendation.

Lemma no_occurrence_free (sep s : string) :
  Signature.no_occurrence sep s = true -> Signature.free_of sep s.
Proof.
  induction s as [| c s IH]; intros H u v Huv.
  - destruct u; [| discriminate]. cbn in Huv. subst v.
    cbn in H. apply andb_true_iff in H. destruct H as [H _].
    now apply negb_true_iff in H.
  - cbn [Signature.no_occurrence] in H.
    apply andb_true_iff in H. destruct H as [Hp Hrest].
    destruct u as [| c' u].
    + cbn in Huv. subst v. now apply negb_true_iff in Hp.
    + cbn in Huv. injection Huv as _ Hs. exact (IH Hrest u v Hs).
Qed.

Lemma parse_recommendation_round_trip_witness :
  Examples.parse_recommendation "Dune by Frank Herbert"
  = Ok ("Dune", "Frank Herbert").
Proof.
  apply (parse_recommendation_round_trip "Dune" "Frank Herbert");
    apply no_occurrence_free; reflexivity.
Defined.

Lemma parse_recommendation_needs_separator_witness :
  Examples.parse_recommendation "I recommend Dune."
  = Raise (ValueError "not enough values to unpack (expected 2, got 1)").
Proof.
  apply (parse_recommendation_needs_separator "I recommend Dune.").
  apply no_occurrence_free. reflexivity.
Defined.

Lemma parse_recommendation_inverse_witness :
  "Dune by Frank Herbert" = "Dune" ++ " by " ++ "Frank Herbert".
Proof.
  apply (parse_recommendation_inverse
           "Dune by Frank Herbert" "Dune" "Frank Herbert").
  reflexivity.
Defined.

(* ------------------------------------------------------------------ *)
(** ** [select_relevant_examples]                                       *)
(* ------------------------------------------------------------------ *)

Section RelevantExamples.
Import Examples.

Variable Score : Type.
Variable similarity_scores : string -> list string -> outcome (list Score).
Variable argsort : list Score -> list nat.

Lemma in_skipn {A : Type} (k : nat) :
  forall (l : list A) (x : A), In x (skipn k l) -> In x l.
Proof.
  induction k as [| k IH]; intros l x H; [exact H |].
  destruct l as [| a l]; [exact H |]. right. exact (IH l x H).
Qed.

Lemma in_slice_from {A : Type} (start : Z) (l : list A) (x : A) :
  In x (slice_from start l) -> In x l.
Proof. apply in_skipn. Qed.

(** The number of elements of [l[-n:]]. *)
Lemma slice_from_length {A : Type} (n : Z) (l : list A) :
  List.length (slice_from (- n) l)
  = if (0 <? n)%Z
    then Nat.min (Z.to_nat n) (List.length l)
    else (List.length l - Nat.min (Z.to_nat (- n)) (List.length l))%nat.
Proof.
  unfold slice_from. rewrite length_skipn.
  destruct (0 <? n)%Z eqn:Hn.
  - apply Z.ltb_lt in Hn.
    assert (E : (- n <? 0)%Z = true) by (apply Z.ltb_lt; lia).
    rewrite E. lia.
  - apply Z.ltb_ge in Hn.
    assert (E : (- n <? 0)%Z = false) by (apply Z.ltb_ge; lia).
    rewrite E. lia.
Qed.

(** Indexing with valid indices returns the elements at these indices. *)
Lemma index_all_valid {A : Type} (examples : list A) (indices : list nat) :
  (forall i, In i indices -> (i < List.length examples)%nat) ->
  exists result,
    index_all examples indices = Returns result
    /\ Forall2 (fun i x => nth_error examples i = Some x) indices result.
Proof.
  induction indices as [| i indices IH]; intros Hvalid.
  - exists []. split; [reflexivity | constructor].
  - destruct IH as [result [Hrun Hall]].
    { intros j Hj. apply Hvalid. right. exact Hj. }
    cbn [index_all].
    destruct (nth_error examples i) as [x |] eqn:E.
    + rewrite Hrun. exists (x :: result). split; [reflexivity |].
      constructor; assumption.
    + apply nth_error_None in E.
      specialize (Hvalid i (or_introl eq_refl)). lia.
Qed.

Lemma forall2_seq {A : Type} (examples : list A) :
  forall (start : nat) (result : list A),
    Forall2 (fun i x => nth_error examples i = Some x)
            (seq start (List.length examples - start)) result ->
    result = skipn start examples.
Proof.
  intros start.
  remember (List.length examples - start)%nat as len eqn:Hlen.
  revert start Hlen.
  induction len as [| len IH]; intros start Hlen result H.
  - inversion H; subst. symmetry. apply skipn_all2. lia.
  - cbn [seq] in H. inversion H as [| i x idxs xs Hx Hrest]; subst.
    rewrite (IH (S start) ltac:(lia) xs Hrest).
    clear - Hx. revert examples Hx.
    induction start as [| start IHs]; intros [| a examples] Hx;
      cbn in Hx; try discriminate.
    + injection Hx as ->. reflexivity.
    + cbn [skipn]. exact (IHs examples Hx).
Qed.

Section Selected.
Variables (query : string) (examples : list FewShotExample) (n : Z)
          (similarities : list Score).
Hypothesis scores_returned :
  similarity_scores query (map question examples) = Returns similarities.
Hypothesis one_score_per_example :
  List.length similarities = List.length examples.
Hypothesis argsort_permutes :
  Permutation (argsort similarities) (seq 0 (List.length similarities)).

Lemma selected_indices_valid (i : nat) :
  In i (rev (slice_from (- n) (argsort similarities))) ->
  (i < List.length examples)%nat.
Proof.
  intros H. apply in_rev in H. apply in_slice_from in H.
  apply (Permutation_in _ argsort_permutes) in H.
  apply in_seq in H. lia.
Qed.

Lemma selection_shape :
  exists result,
    select_relevant_examples Score similarity_scores argsort
                             query examples n = Returns result
    /\ Forall2 (fun i x => nth_error examples i = Some x)
               (rev (slice_from (- n) (argsort similarities))) result.
Proof.
  unfold select_relevant_examples. rewrite scores_returned.
  apply index_all_valid. exact selected_indices_valid.
Qed.

(** With one score per example and an [argsort] that permutes the indices,
    the selection returns, never raising: [n] examples for a positive [n]
    (all of them when there are fewer), each one of the given examples;
    for [n = 0] the slice [[-0:]] is the whole array, so all examples are
    returned, and for a negative [n] all but [-n] of them. *)
Theorem selection_size :
  exists result,
    select_relevant_examples Score similarity_scores argsort
                             query examples n = Returns result
    /\ List.length result
       = (if (0 <? n)%Z
          then Nat.min (Z.to_nat n) (List.length examples)
          else (List.length examples
                - Nat.min (Z.to_nat (- n)) (List.length examples))%nat)
    /\ incl result examples.
Proof.
  destruct selection_shape as [result [Hrun Hall]].
  exists result. split; [exact Hrun |]. split.
  - rewrite <- (Forall2_length Hall), length_rev, slice_from_length.
    rewrite (Permutation_length argsort_permutes), length_seq.
    now rewrite one_score_per_example.
  - clear Hrun. induction Hall as [| i x idxs xs Hx _ IH];
      intros y Hy; [destruct Hy |].
    destruct Hy as [<- | Hy]; [exact (nth_error_In _ _ Hx) | exact (IH y Hy)].
Qed.

(** Asking for no example ([n = 0]), or for at least as many as there are,
    returns every example: the result is a permutation of the examples. *)
Theorem selection_of_everything :
  (n = 0 \/ Z.of_nat (List.length examples) <= n)%Z ->
  exists result,
    select_relevant_examples Score similarity_scores argsort
                             query examples n = Returns result
    /\ Permutation result examples.
Proof.
  intros Hn.
  destruct selection_shape as [result [Hrun Hall]].
  exists result. split; [exact Hrun |].
  assert (Hslice : slice_from (- n) (argsort similarities)
                   = argsort similarities).
  { unfold slice_from.
    rewrite (Permutation_length argsort_permutes), length_seq,
      one_score_per_example.
    replace (Z.to_nat _) with 0%nat; [apply skipn_0 |].
    destruct Hn as [-> | Hn]; cbn; [lia |].
    destruct (- n <? 0)%Z eqn:E; [| apply Z.ltb_ge in E]; lia. }
  rewrite Hslice in Hall.
  assert (Hperm : Permutation (rev (argsort similarities))
                              (seq 0 (List.length examples - 0))).
  { rewrite Nat.sub_0_r, <- one_score_per_example.
    eapply Permutation_trans; [| exact argsort_permutes].
    apply Permutation_sym, Permutation_rev. }
  destruct (Permutation_Forall2 Hperm Hall) as [result' [Hres Hall']].
  apply forall2_seq in Hall'. rewrite skipn_0 in Hall'. subst result'.
  exact Hres.
Qed.

(** [dynamic_self_ask] computes one row per selected example, each row the
    question and the answer of one of the given examples. *)
Theorem computed_examples_rows :
  exists rows,
    dynamic_self_ask Score similarity_scores argsort query examples n
    = Returns rows
    /\ List.length rows
       = (if (0 <? n)%Z
          then Nat.min (Z.to_nat n) (List.length examples)
          else (List.length examples
                - Nat.min (Z.to_nat (- n)) (List.length examples))%nat)
    /\ Forall (fun row => exists example,
                   In example examples
                   /\ row = [question example; answer example]) rows.
Proof.
  destruct selection_shape as [result [Hrun Hall]].
  unfold dynamic_self_ask. rewrite Hrun. eexists. split; [reflexivity |].
  split.
  - rewrite length_map, <- (Forall2_length Hall), length_rev,
      slice_from_length.
    rewrite (Permutation_length argsort_permutes), length_seq.
    now rewrite one_score_per_example.
  - apply Forall_map. clear Hrun.
    induction Hall as [| i x idxs xs Hx _ IH]; constructor; [| exact IH].
    exists x. split; [exact (nth_error_In _ _ Hx) | reflexivity].
Qed.

End Selected.
End RelevantExamples.

Lemma selection_size_witness :
  exists result,
    Examples.select_relevant_examples nat Cases.flat_scores Cases.index_order
                                      "Who invented the phonograph?"
                                      Cases.two_examples 1
    = Returns result
    /\ List.length result = 1%nat
    /\ incl result Cases.two_examples.
Proof.
  apply (selection_size nat Cases.flat_scores Cases.index_order
                        "Who invented the phonograph?"
                        Cases.two_examples 1 [0%nat; 0%nat]).
  - reflexivity.
  - reflexivity.
  - apply Permutation_refl.
Defined.

Lemma selection_of_everything_witness :
  exists result,
    Examples.select_relevant_examples nat Cases.flat_scores Cases.index_order
                                      "Who invented the phonograph?"
                                      Cases.two_examples 0
    = Returns result
    /\ Permutation result Cases.two_examples.
Proof.
  apply (selection_of_everything nat Cases.flat_scores Cases.index_order
                                 "Who invented the phonograph?"
                                 Cases.two_examples 0 [0%nat; 0%nat]).
  - reflexivity.
  - reflexivity.
  - apply Permutation_refl.
  - left. reflexivity.
Defined.

Lemma computed_examples_rows_witness :
  exists rows,
    Examples.dynamic_self_ask nat Cases.flat_scores Cases.index_order
                              "Who invented the phonograph?"
                              Cases.two_examples 2
    = Returns rows
    /\ List.length rows = 2%nat
    /\ Forall (fun row => exists example,
                   In example Cases.two_examples
                   /\ row = [Examples.question example;
                             Examples.answer example]) rows.
Proof.
  apply (computed_examples_rows nat Cases.flat_scores Cases.index_order
                                "Who invented the phonograph?"
                                Cases.two_examples 2 [0%nat; 0%nat]).
  - reflexivity.
  - reflexivity.
  - apply Permutation_refl.
Defined.

(* ------------------------------------------------------------------ *)
(** ** The field of each parameter                                      *)
(* ------------------------------------------------------------------ *)

Section FieldOfParameter.
Import Tools Documentation Signature.

Lemma docstring_check_value (i : nat) (p : SigParameter)
      (docs : list DocstringParam) (o : option string) :
  docstring_check i p docs = Ok o ->
  o = position_description docs i
  /\ (if opt_str_truthy o then o else None) = o.
Proof.
  unfold docstring_check, position_description.
  destruct (i <? List.length docs)%nat eqn:Hlt.
  - destruct (nth_error docs i) as [d |]; [| now intros [= <-]].
    destruct (negb (arg_name d =? name p)); [discriminate |].
    destruct (opt_str_truthy (description d)) eqn:Ht; [| discriminate].
    cbn [negb]. intros [= <-]. rewrite Ht. split; reflexivity.
  - apply Nat.ltb_ge in Hlt. apply nth_error_None in Hlt. rewrite Hlt.
    now intros [= <-].
Qed.

(** The entry of each non-receiver parameter is its field, described by
    the docstring entry at the parameter's index in the whole signature. *)
Lemma collect_fields_positions (ps : list SigParameter) :
  forall (i : nat) (docs : list DocstringParam)
         (fd fd' : list (string * FieldInfo)),
    collect_fields i ps docs fd = Ok fd' ->
    exists entries,
      fd' = dict_update fd entries
      /\ Forall2 (fun ip e => exists hint,
                      annotation (snd ip) = Some hint
                      /\ e = field_of_parameter
                               (snd ip) hint
                               (position_description docs (fst ip))
                      /\ fi_description (snd e)
                         = position_description docs (fst ip))
                 (enumerated i ps) entries.
Proof.
  unfold enumerated.
  induction ps as [| a ps IH]; intros i docs fd fd' Hrun.
  - cbn in Hrun. injection Hrun as <-. exists []. split; constructor.
  - cbn [collect_fields] in Hrun. cbn [List.length seq combine filter snd].
    destruct (is_receiver (name a)) eqn:Hr; cbn [negb].
    + exact (IH _ _ _ _ Hrun).
    + destruct (annotation a) as [hint |] eqn:Ha; [| discriminate].
      destruct (docstring_check i a docs) as [o | e] eqn:Ho;
        [| discriminate].
      cbn [bind] in Hrun. apply docstring_check_value in Ho.
      destruct Ho as [-> Hkeep].
      destruct (IH _ _ _ _ Hrun) as [entries [Hfd Hall]].
      exists (field_of_parameter a hint (position_description docs i)
                :: entries).
      split; [exact Hfd |].
      constructor; [| exact Hall]. exists hint. split; [exact Ha |].
      split; [reflexivity |]. cbn [fst snd].
      unfold field_of_parameter.
      destruct (startswith "model_" (name a)); cbn [snd fi_description];
        exact Hkeep.
Qed.

Lemma enumerated_keys (l : list (nat * SigParameter))
      (docs : list DocstringParam) (entries : list (string * FieldInfo)) :
  Forall2 (fun ip e => exists hint,
               annotation (snd ip) = Some hint
               /\ e = field_of_parameter
                        (snd ip) hint
                        (position_description docs (fst ip))
               /\ fi_description (snd e)
                  = position_description docs (fst ip))
          l entries ->
  dict_keys entries = map (fun ip => field_key (name (snd ip))) l.
Proof.
  induction 1 as [| ip e l entries [hint [_ [-> _]]] _ IH]; [reflexivity |].
  cbn. unfold dict_keys in IH. rewrite IH. f_equal.
  apply field_of_parameter_keys.
Qed.

Lemma forall2_in_left {A B : Type} (R : A -> B -> Prop)
      (l1 : list A) (l2 : list B) (x : A) :
  Forall2 R l1 l2 -> In x l1 -> exists y, In y l2 /\ R x y.
Proof.
  induction 1 as [| a b l1 l2 Hab _ IH]; intros Hin; [destruct Hin |].
  destruct Hin as [<- | Hin].
  - exists b. split; [left; reflexivity | exact Hab].
  - destruct (IH Hin) as [y [Hy Hxy]]. exists y. split; [right |]; assumption.
Qed.

Lemma in_enumerated (ps : list SigParameter) :
  forall (start i : nat) (p : SigParameter),
    nth_error ps i = Some p ->
    is_receiver (name p) = false ->
    In ((start + i)%nat, p) (enumerated start ps).
Proof.
  unfold enumerated.
  induction ps as [| a ps IH]; intros start i p Hp Hr.
  - destruct i; discriminate.
  - cbn [List.length seq combine filter snd]. destruct i as [| i].
    + cbn in Hp. injection Hp as ->. rewrite Hr. cbn [negb].
      rewrite Nat.add_0_r. left. reflexivity.
    + cbn in Hp. specialize (IH (S start) i p Hp Hr).
      replace (start + S i)%nat with (S start + i)%nat by lia.
      destruct (negb (is_receiver (name a))); [right |]; exact IH.
Qed.

(** In the class built from a function, the field of each parameter that
    is not a receiver holds the parameter's annotation and default, and for
    description what the docstring gives at the parameter's index in the
    whole signature, receivers counted: none when the docstring has no
    entry there. *)
Theorem field_of_each_parameter
        (f : Function) (base cls : ModelClass) (i : nat) (p : SigParameter) :
  convert_function_to_tool f base = Ok cls ->
  NoDup (map (fun ip => field_key (name (snd ip)))
             (enumerated 0 (fn_parameters f))) ->
  nth_error (fn_parameters f) i = Some p ->
  is_receiver (name p) = false ->
  exists hint fi,
    annotation p = Some hint
    /\ dict_get (field_key (name p)) (model_fields cls) = Some fi
    /\ fi_annotation fi = hint
    /\ fi_default fi = default p
    /\ fi_description fi
       = position_description (params (fn_docstring f)) i.
Proof.
  unfold convert_function_to_tool.
  destruct (negb (opt_str_truthy (fn_doc f))); [discriminate |].
  destruct (collect_fields 0 (fn_parameters f) (params (fn_docstring f)) [])
    as [fd' | e] eqn:Hrun; [| discriminate].
  cbn [bind]. intros H Hnd Hp Hr. injection H as <-.
  cbn [create_model model_fields tool_fn].
  destruct (collect_fields_positions _ _ _ _ _ Hrun) as [entries [-> Hall]].
  pose proof (enumerated_keys _ _ _ Hall) as Hk.
  assert (Hkeys : NoDup (dict_keys entries)) by (rewrite Hk; exact Hnd).
  rewrite (dict_update_fresh entries []) by (auto; intros k _ []).
  cbn [app].
  destruct (forall2_in_left _ _ _ _ Hall (in_enumerated _ 0 i p Hp Hr))
    as [e [He [hint [Ha [-> Hdescr]]]]].
  cbn [fst snd Nat.add] in He, Ha, Hdescr.
  set (descr := position_description (params (fn_docstring f)) i) in *.
  exists hint, (snd (field_of_parameter p hint descr)).
  split; [exact Ha |]. split.
  - apply dict_get_update; [exact Hkeys |].
    destruct (field_of_parameter_keys p hint descr) as [<- _].
    now destruct (field_of_parameter p hint descr).
  - split; [| split; [| exact Hdescr]]; unfold field_of_parameter;
      destruct (startswith "model_" (name p)); reflexivity.
Qed.

End FieldOfParameter.

Lemma field_of_each_parameter_witness :
  exists cls hint fi,
    Tools.convert_function_to_tool Cases.square_method Samples.provider_tool
    = Ok cls
    /\ Tools.annotation (Samples.int_param "a") = Some hint
    /\ dict_get (Documentation.field_key
                   (Tools.name (Samples.int_param "a")))
                (Tools.model_fields cls) = Some fi
    /\ Tools.fi_annotation fi = hint
    /\ Tools.fi_default fi = Tools.default (Samples.int_param "a")
    /\ Tools.fi_description fi
       = Signature.position_description
           (Tools.params (Tools.fn_docstring Cases.square_method)) 1.
Proof.
  eexists.
  assert (Hconv : Tools.convert_function_to_tool Cases.square_method
                                                 Samples.provider_tool
                  = Ok _) by reflexivity.
  destruct (field_of_each_parameter
              Cases.square_method Samples.provider_tool _ 1
              (Samples.int_param "a") Hconv)
    as [hint [fi H]].
  - repeat constructor; cbn; intuition discriminate.
  - reflexivity.
  - reflexivity.
  - exists hint, fi. split; [exact Hconv | exact H].
Defined.



(** On the groq test's input the reconstructed response has null usage,
    tokens and cost, like the usage-less completion the test compares it
    with; on the cohere test's input it has the billed units of the stream
    and their cost, like the test's response. *)
Example reconstruction_on_the_test_inputs :
  (exists s constructed,
      Core.consume Samples.test_prices
                   (Core.new_stream "groq" "llama3-70b-8192"
                                    Samples.groq_chunks) = Ok (Some s)
      /\ Core.stream_cost s = Some (Qred (138 # 100000000))
      /\ Core.construct_call_response s = Ok constructed
      /\ constructed = Core.mkCallResponse "groq" Samples.groq_completion
      /\ Core.usage constructed = None
      /\ Core.cost Samples.test_prices constructed = Ok None)
  /\ (exists s constructed,
         Core.consume Samples.test_prices
                      (Core.new_stream "cohere" "command-r-plus"
                                       Samples.cohere_chunks) = Ok (Some s)
         /\ Core.construct_call_response s = Ok constructed
         /\ constructed
            = Core.mkCallResponse "cohere" Samples.cohere_completion
         /\ Core.usage constructed
            = Some {| Core.input_tokens := 1; Core.output_tokens := 1 |}
         /\ Core.cost Samples.test_prices constructed
            = Ok (Some (Qred (18 # 1000000)))).
Proof.
  split; do 2 eexists; repeat split; reflexivity.
Qed.
